(** * A calculator front end: the session store and its helpers

    Shallow embedding of [frontend/src/lib/store.ts] (the zustand store of the
    calculator) and of [frontend/src/lib/utils.ts] ([formatNumber],
    [isOperator]).  JavaScript strings are sequences of UTF-16 code units,
    JavaScript numbers are IEEE 754 binary64 values (Rocq's primitive
    floats), the memory bank is a plain object: a finite map for its own
    slots, read through [Object.prototype]. *)

From Stdlib Require Import ZArith NArith QArith Qround List Ascii String Floats Lia.
From Stdlib Require Import DecimalString.
From stdpp Require Import base option list gmap.

Local Open Scope Z_scope.

(* ====================================================================== *)
(** * JavaScript strings *)
(* ====================================================================== *)

Module JsString.

(** A string value is a finite sequence of 16-bit code units. *)
Definition codeunit := N.
Definition jsstring := list codeunit.

(** An ASCII literal of the source, as code units. *)
Definition lit (s : string) : jsstring :=
  map N_of_ascii (list_ascii_of_string s).
Arguments lit s%_string_scope.

(** GREEK SMALL LETTER PI, U+03C0, one code unit. *)
Definition pi_char : codeunit := 960%N.

(** [ToBoolean] of a string: the empty string is the only falsy one. *)
Definition truthy (s : jsstring) : bool :=
  match s with [] => false | _ :: _ => true end.

Definition eqs (a b : jsstring) : bool := bool_decide (a = b).

Fixpoint startsWith (p s : jsstring) : bool :=
  match p, s with
  | [], _ => true
  | _ :: _, [] => false
  | a :: p', b :: s' => (a =? b)%N && startsWith p' s'
  end.

(** [s.replace(/pat/g, rep)] for a pattern that is a literal, non-empty
    sequence of characters and a replacement without [$]: matches are
    found left to right and do not overlap.  [skip] counts the code units
    of the current match still to be dropped. *)
Fixpoint replaceAllFrom (pat rep : jsstring) (skip : nat) (s : jsstring)
  : jsstring :=
  match s with
  | [] => []
  | c :: s' =>
      match skip with
      | S k => replaceAllFrom pat rep k s'
      | O =>
          if startsWith pat s
          then rep ++ replaceAllFrom pat rep (Nat.pred (length pat)) s'
          else c :: replaceAllFrom pat rep O s'
      end
  end.

Definition replaceAll (pat rep s : jsstring) : jsstring :=
  replaceAllFrom pat rep O s.

(** [s.slice(0, -1)]: everything but the last code unit. *)
Definition sliceDropLast (s : jsstring) : jsstring :=
  take (length s - 1)%nat s.

(** [l.includes(v)] on an array of strings. *)
Definition includes (l : list jsstring) (v : jsstring) : bool :=
  existsb (eqs v) l.

End JsString.
Import JsString.

(* ====================================================================== *)
(** * JavaScript numbers *)
(* ====================================================================== *)

(** Number values are binary64 floats.  Conversions between numbers and
    decimal text are computed on exact rationals, following ECMA-262:
    [Number::toString], [Number.prototype.toExponential],
    [Number.prototype.toPrecision], [parseFloat] and [StringToNumber]. *)
Module JsNumber.

Definition pow2 (z : Z) : Q := Qpower 2 z.
Definition pow10 (z : Z) : Q := Qpower 10 z.
Definition Qltb (a b : Q) : bool :=
  match Qcompare a b with Lt => true | _ => false end.

Definition digitsOfZ (z : Z) : jsstring :=
  lit (NilZero.string_of_uint (N.to_uint (Z.to_N z))).
Definition zeros (n : Z) : jsstring := repeat 48%N (Z.to_nat n).

(** The real number denoted by a finite float [m * 2^e]. *)
Definition exactValue (m : positive) (e : Z) : Q :=
  (inject_Z (Zpos m) * pow2 e)%Q.

(** Does the real [v] round (to nearest, ties to even) to the float
    [m * 2^e]?  The gap below a power of two is half the gap above. *)
Definition roundsTo (m : positive) (e : Z) (v : Q) : bool :=
  let x4 := 4 * Zpos m in
  let lo4 := if (Zpos m =? 2 ^ 52) && (-1074 <? e) then x4 - 1 else x4 - 2 in
  let lo := (inject_Z lo4 * pow2 (e - 2))%Q in
  let hi := (inject_Z (x4 + 2) * pow2 (e - 2))%Q in
  if Z.even (Zpos m) then Qle_bool lo v && Qle_bool v hi
  else Qltb lo v && Qltb v hi.

Fixpoint findExponent (fuel : nat) (n : Z) (x : Q) : Z :=
  match fuel with
  | O => n
  | S fuel' => if Qltb x (pow10 n) then n else findExponent fuel' (n + 1) x
  end.

(** The [n] with [10^(n-1) <= x < 10^n], for a positive float value [x]. *)
Definition decimalExponent (x : Q) : Z := findExponent 700 (-330) x.

(** [Number::toString], step 5: the least number of digits [k] and the
    digits [s], [10^(k-1) <= s < 10^k], with [s * 10^(n-k)] rounding to
    the float; among several [s], the one closest to it. *)
Fixpoint shortestFrom (fuel : nat) (k : Z) (m : positive) (e : Z) (n0 : Z)
  : Z * Z * Z :=
  match fuel with
  | O => (0, 0, 0)
  | S fuel' =>
      let x := exactValue m e in
      let scale := pow10 (n0 - k) in
      let s1 := Qfloor (x / scale)%Q in
      let s2 := s1 + 1 in
      let v1 := (inject_Z s1 * scale)%Q in
      let v2 := (inject_Z s2 * scale)%Q in
      let up := if s2 =? 10 ^ k then (10 ^ (k - 1), k, n0 + 1) else (s2, k, n0) in
      match roundsTo m e v1, roundsTo m e v2 with
      | true, true =>
          match Qcompare (x - v1)%Q (v2 - x)%Q with
          | Lt => (s1, k, n0)
          | Gt => up
          | Eq => if Z.even s1 then (s1, k, n0) else up
          end
      | true, false => (s1, k, n0)
      | false, true => up
      | false, false => shortestFrom fuel' (k + 1) m e n0
      end
  end.

Definition shortestDigits (m : positive) (e : Z) : Z * Z * Z :=
  shortestFrom 20 1 m e (decimalExponent (exactValue m e)).

Definition exponentSuffix (e : Z) : jsstring :=
  lit "e" ++ (if e <? 0 then lit "-" else lit "+") ++ digitsOfZ (Z.abs e).

(** [Number::toString], steps 6 to 10. *)
Definition formatShortest (s k n : Z) : jsstring :=
  let ds := digitsOfZ s in
  if (k <=? n) && (n <=? 21) then ds ++ zeros (n - k)
  else if (0 <? n) && (n <=? 21)
    then take (Z.to_nat n) ds ++ lit "." ++ drop (Z.to_nat n) ds
  else if (-6 <? n) && (n <=? 0) then lit "0." ++ zeros (- n) ++ ds
  else if k =? 1 then ds ++ exponentSuffix (n - 1)
  else take 1 ds ++ lit "." ++ drop 1 ds ++ exponentSuffix (n - 1).

(** [v.toString()], radix 10. *)
Definition Number_toString (v : float) : jsstring :=
  match Prim2SF v with
  | S754_nan => lit "NaN"
  | S754_zero _ => lit "0"
  | S754_infinity neg => if neg then lit "-Infinity" else lit "Infinity"
  | S754_finite neg m e =>
      let '(s, k, n) := shortestDigits m e in
      (if neg then lit "-" else []) ++ formatShortest s k n
  end.

Definition roundHalfUp (q : Q) : Z := Qfloor (q + (1 # 2))%Q.

(** The integer [n] of [digits] digits and the exponent [e] with
    [n * 10^(e-digits+1)] closest to [x]; of two, the larger. *)
Definition roundedDigits (x : Q) (digits : Z) : Z * Z :=
  let e := decimalExponent x - 1 in
  let n := roundHalfUp (x / pow10 (e - (digits - 1)))%Q in
  if n =? 10 ^ digits then (10 ^ (digits - 1), e + 1) else (n, e).

Definition pointAfter (i : nat) (ds : jsstring) : jsstring :=
  match drop i ds with
  | [] => ds
  | rest => take i ds ++ lit "." ++ rest
  end.

(** [v.toExponential(f)]: one digit, a point, [f] digits, the exponent. *)
Definition toExponential (f : Z) (v : float) : jsstring :=
  match Prim2SF v with
  | S754_nan | S754_infinity _ => Number_toString v
  | S754_zero _ => pointAfter 1 (zeros (f + 1)) ++ lit "e+0"
  | S754_finite neg m e2 =>
      let '(n, e) := roundedDigits (exactValue m e2) (f + 1) in
      (if neg then lit "-" else []) ++ pointAfter 1 (digitsOfZ n) ++ exponentSuffix e
  end.

(** [v.toPrecision(p)]: [p] significant digits. *)
Definition toPrecision (p : Z) (v : float) : jsstring :=
  match Prim2SF v with
  | S754_nan | S754_infinity _ => Number_toString v
  | S754_zero _ => pointAfter 1 (zeros p)
  | S754_finite neg m e2 =>
      let '(n, e) := roundedDigits (exactValue m e2) p in
      let ds := digitsOfZ n in
      (if neg then lit "-" else []) ++
      (if (e <? -6) || (p <=? e) then pointAfter 1 ds ++ exponentSuffix e
       else if e =? p - 1 then ds
       else if 0 <=? e then pointAfter (Z.to_nat (e + 1)) ds
       else lit "0." ++ zeros (- (e + 1)) ++ ds)
  end.

Definition isFinite (v : float) : bool :=
  match Prim2SF v with S754_nan | S754_infinity _ => false | _ => true end.

Definition isNaN (v : float) : bool :=
  match Prim2SF v with S754_nan => true | _ => false end.

(** [Number.isInteger(v)]. *)
Definition isInteger (v : float) : bool :=
  match Prim2SF v with
  | S754_zero _ => true
  | S754_finite _ m e => (0 <=? e) || (Zpos m mod 2 ^ (- e) =? 0)
  | _ => false
  end.

Definition roundHalfEven (q : Q) : Z :=
  let f := Qfloor q in
  match Qcompare (q - inject_Z f)%Q (1 # 2)%Q with
  | Lt => f
  | Gt => f + 1
  | Eq => if Z.even f then f else f + 1
  end.

Definition signedZero (neg : bool) : float := if neg then neg_zero else zero.
Definition signedInfinity (neg : bool) : float :=
  if neg then neg_infinity else infinity.

(** The Number value for a non-negative real [q], with the sign [neg]. *)
Definition roundToDouble (neg : bool) (q : Q) : float :=
  if Qle_bool q 0%Q then signedZero neg else
  let est := Z.log2 (Qnum q) - Z.log2 (Zpos (Qden q)) - 53 in
  let est := if Qle_bool (pow2 (est + 53)) q then est + 1 else est in
  let e := Z.max est (-1074) in
  let m := roundHalfEven (q / pow2 e)%Q in
  let '(m, e) := if m =? 2 ^ 53 then (2 ^ 52, e + 1) else (m, e) in
  if 971 <? e then signedInfinity neg else
  match m with
  | Zpos p => SF2Prim (S754_finite neg p e)
  | _ => signedZero neg
  end.

(* ------------------------------------------------------------------ *)
(** ** Decimal text to numbers *)

Definition isDigit (c : codeunit) : bool := ((48 <=? c) && (c <=? 57))%N.
Definition digitValue (c : codeunit) : Z := Z.of_N c - 48.

(** [WhiteSpace] and [LineTerminator] code units ([StrWhiteSpaceChar]). *)
Definition isStrWhiteSpaceChar (c : codeunit) : bool :=
  existsb (N.eqb c)
    [9; 10; 11; 12; 13; 32; 160; 5760; 8232; 8233; 8239; 8287; 12288; 65279]%N
  || ((8192 <=? c) && (c <=? 8202))%N.

Fixpoint trimStart (s : jsstring) : jsstring :=
  match s with
  | c :: s' => if isStrWhiteSpaceChar c then trimStart s' else s
  | [] => []
  end.

Definition trim (s : jsstring) : jsstring :=
  rev (trimStart (rev (trimStart s))).

(** Longest run of decimal digits: the value accumulated on [acc], how
    many digits were read, and the rest. *)
Fixpoint scanDigits (s : jsstring) (acc count : Z) : Z * Z * jsstring :=
  match s with
  | c :: s' =>
      if isDigit c then scanDigits s' (10 * acc + digitValue c) (count + 1)
      else (acc, count, s)
  | [] => (acc, count, [])
  end.

Definition scanSign (s : jsstring) : bool * jsstring :=
  match s with
  | c :: s' =>
      if (c =? 45)%N then (true, s') else if (c =? 43)%N then (false, s') else (false, s)
  | [] => (false, s)
  end.

(** [ExponentPart], when one is there: [e] or [E], a sign, digits. *)
Definition scanExponent (s : jsstring) : Z * jsstring :=
  match s with
  | c :: s1 =>
      if ((c =? 101) || (c =? 69))%N then
        let '(neg, s2) := scanSign s1 in
        let '(ev, ne, s3) := scanDigits s2 0 0 in
        if 0 <? ne then (if neg then - ev else ev, s3) else (0, s)
      else (0, s)
  | [] => (0, s)
  end.

(** The longest prefix that is [digits . digits? exp?], [. digits exp?] or
    [digits exp?]: its exact value and the rest. *)
Definition scanDecimal (s : jsstring) : option (Q * jsstring) :=
  let '(ip, ni, r1) := scanDigits s 0 0 in
  let '(mant, nf, r2) :=
    match r1 with
    | c :: r1' => if (c =? 46)%N then scanDigits r1' ip 0 else (ip, 0, r1)
    | [] => (ip, 0, r1)
    end in
  if (0 <? ni) || (0 <? nf) then
    let '(ex, r3) := scanExponent r2 in
    Some ((inject_Z mant * pow10 (ex - nf))%Q, r3)
  else None.

(** [parseFloat(s)]: the longest prefix of the trimmed text that is a
    [StrDecimalLiteral]; [NaN] when there is none. *)
Definition parseFloat (s : jsstring) : float :=
  let '(neg, u) := scanSign (trimStart s) in
  if startsWith (lit "Infinity") u then signedInfinity neg else
  match scanDecimal u with
  | Some (q, _) => roundToDouble neg q
  | None => nan
  end.

Definition digitOfRadix (radix : Z) (c : codeunit) : option Z :=
  let v :=
    if isDigit c then Z.of_N c - 48
    else if ((97 <=? c) && (c <=? 102))%N then Z.of_N c - 87
    else if ((65 <=? c) && (c <=? 70))%N then Z.of_N c - 55
    else radix in
  if v <? radix then Some v else None.

Fixpoint scanRadix (radix : Z) (s : jsstring) (acc : Z) : option Z :=
  match s with
  | [] => Some acc
  | c :: s' =>
      match digitOfRadix radix c with
      | Some v => scanRadix radix s' (radix * acc + v)
      | None => None
      end
  end.

(** [NonDecimalIntegerLiteral]: [0x], [0o] or [0b] and at least one digit. *)
Definition nonDecimalInteger (s : jsstring) : option Z :=
  match s with
  | 48%N :: p :: (_ :: _) as ds =>
      if ((p =? 120) || (p =? 88))%N then scanRadix 16 ds 0
      else if ((p =? 111) || (p =? 79))%N then scanRadix 8 ds 0
      else if ((p =? 98) || (p =? 66))%N then scanRadix 2 ds 0
      else None
  | _ => None
  end.

(** [Number(s)] on a string ([StringToNumber]): the whole trimmed text
    must be a numeric literal; the empty text is [0]. *)
Definition StringToNumber (s : jsstring) : float :=
  let t := trim s in
  match t with
  | [] => zero
  | _ =>
      match nonDecimalInteger t with
      | Some z => roundToDouble false (inject_Z z)
      | None =>
          let '(neg, u) := scanSign t in
          if eqs u (lit "Infinity") then signedInfinity neg else
          match scanDecimal u with
          | Some (q, []) => roundToDouble neg q
          | _ => nan
          end
      end
  end.

End JsNumber.
Import JsNumber.

(* ====================================================================== *)
(** * The evaluator behind [calculate] *)
(* ====================================================================== *)

(** [calculate] runs [new Decimal(eval(src)).toString()].  Both [eval] and
    decimal.js are outside the repository; this module gives the outcome
    for the arithmetic fragment of ECMAScript that calculator input is
    rewritten to: decimal literals, [+ - * / % **], unary signs,
    parentheses, the comma operator, [Math.PI], [Math.E] and calls of
    [Math.sin], [cos], [tan], [log10], [log], [sqrt], [abs].  Source text
    outside the fragment, and values ECMA-262 leaves to the implementation
    (the transcendental functions, [**], and [%], which the float
    primitives do not provide), get the outcome [Unmodelled]: the model says
    nothing about them. *)
Module JsEval.

Inductive MathFn := Msin | Mcos | Mtan | Mlog10 | Mlog | Msqrt | Mabs.

Inductive token :=
| TNum (v : float)
| TPI | TE
| TFn (f : MathFn)
| TLParen | TRParen | TComma
| TPlus | TMinus | TStar | TSlash | TPercent | TStarStar
| TBad      (* an early error: a literal run into an identifier *)
| TOther.   (* text outside the fragment starts here *)

Definition isIdentifierStart (c : codeunit) : bool :=
  (((65 <=? c) && (c <=? 90)) || ((97 <=? c) && (c <=? 122))
   || (c =? 36) || (c =? 95))%N.

Definition isIdentifierPart (c : codeunit) : bool :=
  isIdentifierStart c || isDigit c.

(** A backslash or a character beyond ASCII may continue an identifier. *)
Definition mayContinueName (s : jsstring) : bool :=
  match s with
  | c :: _ => ((c =? 92) || (128 <=? c))%N
  | [] => false
  end.

Fixpoint spanName (s : jsstring) : jsstring * jsstring :=
  match s with
  | c :: s' =>
      if isIdentifierPart c
      then let '(name, rest) := spanName s' in (c :: name, rest)
      else ([], s)
  | [] => ([], [])
  end.

Definition mathMember (name : jsstring) : option token :=
  if eqs name (lit "PI") then Some TPI
  else if eqs name (lit "E") then Some TE
  else if eqs name (lit "sin") then Some (TFn Msin)
  else if eqs name (lit "cos") then Some (TFn Mcos)
  else if eqs name (lit "tan") then Some (TFn Mtan)
  else if eqs name (lit "log10") then Some (TFn Mlog10)
  else if eqs name (lit "log") then Some (TFn Mlog)
  else if eqs name (lit "sqrt") then Some (TFn Msqrt)
  else if eqs name (lit "abs") then Some (TFn Mabs)
  else None.

(** The only names of the fragment: [Math.] and one of its members. *)
Definition lexName (s : jsstring) : token * jsstring :=
  let '(name, r) := spanName s in
  if eqs name (lit "Math") then
    match r with
    | 46%N :: r1 =>
        let '(member, r2) := spanName r1 in
        if mayContinueName r2 then (TOther, [])
        else match mathMember member with
             | Some t => (t, r2)
             | None => (TOther, [])
             end
    | _ => (TOther, [])
    end
  else (TOther, []).

(** A [DecimalLiteral].  Legacy octal, [0x], [0o], [0b], numeric
    separators, BigInt suffixes and literals of more than 20 characters
    (whose rounding ECMA-262 leaves open) are outside the fragment; a
    literal immediately followed by an identifier start is an early
    error. *)
Definition lexNumber (s : jsstring) : token * jsstring :=
  let special :=
    match s with
    | 48%N :: c :: _ =>
        isDigit c || existsb (N.eqb c) [120; 88; 111; 79; 98; 66]%N
    | _ => false
    end in
  if special then (TOther, []) else
  match scanDecimal s with
  | Some (q, r) =>
      if (20 <? length s - length r)%nat then (TOther, []) else
      match r with
      | c :: _ =>
          if ((c =? 95) || (c =? 110))%N || mayContinueName r then (TOther, [])
          else if isIdentifierStart c then (TBad, [])
          else (TNum (roundToDouble false q), r)
      | [] => (TNum (roundToDouble false q), r)
      end
  | None => (TOther, [])
  end.

Definition startsWithDigit (s : jsstring) : bool :=
  match s with c :: _ => isDigit c | [] => false end.

Fixpoint lex (fuel : nat) (s : jsstring) : list token :=
  match fuel with
  | O => [TOther]
  | S fuel' =>
      match s with
      | [] => []
      | c :: s' =>
          let next t r :=
            match t with
            | TBad | TOther => [t]
            | _ => t :: lex fuel' r
            end in
          if ((c =? 32) || (c =? 9))%N then lex fuel' s'
          else if isDigit c || ((c =? 46)%N && startsWithDigit s')
            then let '(t, r) := lexNumber s in next t r
          else if isIdentifierStart c
            then let '(t, r) := lexName s in next t r
          else if (c =? 40)%N then TLParen :: lex fuel' s'
          else if (c =? 41)%N then TRParen :: lex fuel' s'
          else if (c =? 44)%N then TComma :: lex fuel' s'
          else if (c =? 37)%N then TPercent :: lex fuel' s'
          else if (c =? 43)%N then
            match s' with
            | 43%N :: _ => [TOther]                       (* ++ *)
            | _ => TPlus :: lex fuel' s'
            end
          else if (c =? 45)%N then
            match s' with
            | 45%N :: _ => [TOther]                       (* -- *)
            | _ => TMinus :: lex fuel' s'
            end
          else if (c =? 42)%N then
            match s' with
            | 42%N :: s'' => TStarStar :: lex fuel' s''
            | _ => TStar :: lex fuel' s'
            end
          else if (c =? 47)%N then
            match s' with
            | 47%N :: _ | 42%N :: _ => [TOther]           (* comments *)
            | _ => TSlash :: lex fuel' s'
            end
          else [TOther]
      end
  end.

#[local] Set Warnings "-register-all".

Inductive binop := Add | Sub | Mul | Div | Rem | Pow | Comma.

Inductive expr :=
| ENum (v : float)
| EPI | EE
| ECall (f : MathFn) (args : list expr)
| EUnary (neg : bool) (e : expr)
| EBinary (op : binop) (l r : expr).

Inductive parsed (A : Type) :=
| Ok (a : A) (rest : list token)
| SyntaxError
| Beyond.
Arguments Ok {A} a rest.
Arguments SyntaxError {A}.
Arguments Beyond {A}.

(** After an operand, an opening parenthesis would call a value that is
    not a function: left outside the fragment. *)
Definition operand (e : expr) (rest : list token) : parsed expr :=
  match rest with
  | TLParen :: _ => Beyond
  | _ => Ok e rest
  end.

(** What follows a complete expression where a closing token was due. *)
Definition unexpected {A} (rest : list token) : parsed A :=
  match rest with
  | TOther :: _ | TLParen :: _ => Beyond
  | _ => SyntaxError
  end.

Fixpoint parseExpression (fuel : nat) (ts : list token) : parsed expr :=
  match fuel with
  | O => Beyond
  | S fuel =>
      match parseAdditive fuel ts with
      | Ok e rest => commaTail fuel e rest
      | r => r
      end
  end

with commaTail (fuel : nat) (lhs : expr) (ts : list token) : parsed expr :=
  match fuel with
  | O => Beyond
  | S fuel =>
      match ts with
      | TComma :: ts' =>
          match parseAdditive fuel ts' with
          | Ok r rest => commaTail fuel (EBinary Comma lhs r) rest
          | r => r
          end
      | _ => Ok lhs ts
      end
  end

with parseAdditive (fuel : nat) (ts : list token) : parsed expr :=
  match fuel with
  | O => Beyond
  | S fuel =>
      match parseMultiplicative fuel ts with
      | Ok e rest => additiveTail fuel e rest
      | r => r
      end
  end

with additiveTail (fuel : nat) (lhs : expr) (ts : list token) : parsed expr :=
  match fuel with
  | O => Beyond
  | S fuel =>
      let continue op ts' :=
        match parseMultiplicative fuel ts' with
        | Ok r rest => additiveTail fuel (EBinary op lhs r) rest
        | r => r
        end in
      match ts with
      | TPlus :: ts' => continue Add ts'
      | TMinus :: ts' => continue Sub ts'
      | _ => Ok lhs ts
      end
  end

with parseMultiplicative (fuel : nat) (ts : list token) : parsed expr :=
  match fuel with
  | O => Beyond
  | S fuel =>
      match parseExponentiation fuel ts with
      | Ok e rest => multiplicativeTail fuel e rest
      | r => r
      end
  end

with multiplicativeTail (fuel : nat) (lhs : expr) (ts : list token)
  : parsed expr :=
  match fuel with
  | O => Beyond
  | S fuel =>
      let continue op ts' :=
        match parseExponentiation fuel ts' with
        | Ok r rest => multiplicativeTail fuel (EBinary op lhs r) rest
        | r => r
        end in
      match ts with
      | TStar :: ts' => continue Mul ts'
      | TSlash :: ts' => continue Div ts'
      | TPercent :: ts' => continue Rem ts'
      | _ => Ok lhs ts
      end
  end

(** [UnaryExpression | UpdateExpression ** ExponentiationExpression]: a
    signed operand directly before [**] is an early error. *)
with parseExponentiation (fuel : nat) (ts : list token) : parsed expr :=
  match fuel with
  | O => Beyond
  | S fuel =>
      match ts with
      | TPlus :: _ | TMinus :: _ =>
          match parseUnary fuel ts with
          | Ok _ (TStarStar :: _) => SyntaxError
          | r => r
          end
      | _ =>
          match parsePrimary fuel ts with
          | Ok base (TStarStar :: ts') =>
              match parseExponentiation fuel ts' with
              | Ok x rest => Ok (EBinary Pow base x) rest
              | r => r
              end
          | r => r
          end
      end
  end

with parseUnary (fuel : nat) (ts : list token) : parsed expr :=
  match fuel with
  | O => Beyond
  | S fuel =>
      match ts with
      | TPlus :: ts' =>
          match parseUnary fuel ts' with
          | Ok e rest => Ok (EUnary false e) rest
          | r => r
          end
      | TMinus :: ts' =>
          match parseUnary fuel ts' with
          | Ok e rest => Ok (EUnary true e) rest
          | r => r
          end
      | _ => parsePrimary fuel ts
      end
  end

with parsePrimary (fuel : nat) (ts : list token) : parsed expr :=
  match fuel with
  | O => Beyond
  | S fuel =>
      match ts with
      | TNum v :: rest => operand (ENum v) rest
      | TPI :: rest => operand EPI rest
      | TE :: rest => operand EE rest
      | TFn f :: TLParen :: rest =>
          match parseArguments fuel rest [] with
          | Ok args rest' => operand (ECall f args) rest'
          | SyntaxError => SyntaxError
          | Beyond => Beyond
          end
      | TFn _ :: _ => Beyond                  (* a function as a value *)
      | TLParen :: TRParen :: _ => Beyond     (* arrow-function head *)
      | TLParen :: rest =>
          match parseExpression fuel rest with
          | Ok e (TRParen :: rest') => operand e rest'
          | Ok _ rest' => unexpected rest'
          | r => r
          end
      | TSlash :: _ => Beyond                 (* a regular expression *)
      | TOther :: _ | TPlus :: _ | TMinus :: _ => Beyond
      | TStar :: _ | TStarStar :: _ | TPercent :: _ | TComma :: _
      | TRParen :: _ | TBad :: _ | [] => SyntaxError
      end
  end

(** [Arguments]: expressions separated by commas, a trailing comma allowed. *)
with parseArguments (fuel : nat) (ts : list token) (acc : list expr)
  : parsed (list expr) :=
  match fuel with
  | O => Beyond
  | S fuel =>
      match ts with
      | TRParen :: rest => Ok (rev acc) rest
      | _ =>
          match parseAdditive fuel ts with
          | Ok a (TComma :: rest) => parseArguments fuel rest (a :: acc)
          | Ok a (TRParen :: rest) => Ok (rev (a :: acc)) rest
          | Ok _ rest => unexpected rest
          | SyntaxError => SyntaxError
          | Beyond => Beyond
          end
      end
  end.

(** A script of the fragment: nothing, or one expression statement. *)
Definition parseScript (ts : list token) : parsed (option expr) :=
  match ts with
  | [] => Ok None []
  | _ =>
      match parseExpression (10 * length ts + 10) ts with
      | Ok e [] => Ok (Some e) []
      | Ok _ rest => unexpected rest
      | SyntaxError => SyntaxError
      | Beyond => Beyond
      end
  end.

Definition Math_PI : float := 0x1.921fb54442d18p+1%float.
Definition Math_E : float := 0x1.5bf0a8b145769p+1%float.

Definition lift2 (f : float -> float -> float) (a b : option float)
  : option float :=
  match a, b with
  | Some x, Some y => Some (f x y)
  | _, _ => None
  end.

(** The value of an expression of the fragment; [None] stands for a
    Number that the model does not determine.  Nothing in the fragment
    throws when evaluated. *)
Fixpoint evalExpr (e : expr) : option float :=
  match e with
  | ENum v => Some v
  | EPI => Some Math_PI
  | EE => Some Math_E
  | EUnary neg e1 =>
      match evalExpr e1 with
      | Some v => Some (if neg then PrimFloat.opp v else v)
      | None => None
      end
  | EBinary op l r =>
      match op with
      | Add => lift2 PrimFloat.add (evalExpr l) (evalExpr r)
      | Sub => lift2 PrimFloat.sub (evalExpr l) (evalExpr r)
      | Mul => lift2 PrimFloat.mul (evalExpr l) (evalExpr r)
      | Div => lift2 PrimFloat.div (evalExpr l) (evalExpr r)
      | Comma => evalExpr r
      | Rem | Pow => None
      end
  | ECall f args =>
      let arg :=
        match args with
        | [] => Some nan                         (* ToNumber(undefined) *)
        | a :: _ => evalExpr a
        end in
      match f, arg with
      | Mabs, Some v => Some (PrimFloat.abs v)
      | _, Some v => if isNaN v then Some nan else None
      | _, None => None
      end
  end.

Inductive outcome :=
| Returns (d : jsstring)   (* the decimal's string *)
| Throws                   (* eval or the Decimal constructor threw *)
| Unmodelled.

(** [new Decimal(v).toString()] for a Number [v]: decimal.js reads the
    digits of [v.toString()] and prints them back in the same notation
    (exponential from [1e+21] and below [1e-6]), so the text is that of
    [Number::toString]. *)
Definition Decimal_toString (v : float) : jsstring := Number_toString v.

(** [new Decimal(eval(src)).toString()].  An empty script evaluates to
    [undefined], which the Decimal constructor rejects. *)
Definition evalDecimal (src : jsstring) : outcome :=
  match parseScript (lex (S (length src)) src) with
  | Ok (Some e) _ =>
      match evalExpr e with
      | Some v => Returns (Decimal_toString v)
      | None => Unmodelled
      end
  | Ok None _ => Throws
  | SyntaxError => Throws
  | Beyond => Unmodelled
  end.

(** An evaluator, as [calculate] sees it: the string on success, [None]
    when the [try] block's first two statements throw. *)
Definition Evaluator := jsstring -> option jsstring.

(** A host evaluator conforms when it agrees with the model wherever the
    model determines the outcome. *)
Definition conforms (ev : Evaluator) : Prop :=
  forall src,
    match evalDecimal src with
    | Returns d => ev src = Some d
    | Throws => ev src = None
    | Unmodelled => True
    end.

(** The model as an evaluator: throws outside the fragment. *)
Definition fragmentEvaluator : Evaluator :=
  fun src =>
    match evalDecimal src with
    | Returns d => Some d
    | Throws | Unmodelled => None
    end.

End JsEval.
Import JsEval.

(* ====================================================================== *)
(** * store.ts: the expression rewriter *)
(* ====================================================================== *)

Inductive CalculatorMode := DEG | RAD | GRAD.

(** The template [`Math.f(${mode === 'DEG' ? '* Math.PI / 180' : ''})`]. *)
Definition trigReplacement (f : jsstring) (mode : CalculatorMode) : jsstring :=
  lit "Math." ++ f ++ lit "(" ++
  (match mode with DEG => lit "* Math.PI / 180" | _ => [] end) ++ lit ")".

Definition prepareInputForCalculation (input : jsstring) (mode : CalculatorMode)
  : jsstring :=
  let prepared := replaceAll (lit "^") (lit "**") input in
  let prepared := replaceAll [pi_char] (lit "Math.PI") prepared in
  let prepared := replaceAll (lit "e") (lit "Math.E") prepared in
  let prepared := replaceAll (lit "sin(") (trigReplacement (lit "sin") mode) prepared in
  let prepared := replaceAll (lit "cos(") (trigReplacement (lit "cos") mode) prepared in
  let prepared := replaceAll (lit "tan(") (trigReplacement (lit "tan") mode) prepared in
  let prepared := replaceAll (lit "log(") (lit "Math.log10(") prepared in
  let prepared := replaceAll (lit "ln(") (lit "Math.log(") prepared in
  let prepared := replaceAll (lit "sqrt(") (lit "Math.sqrt(") prepared in
  let prepared := replaceAll (lit "abs(") (lit "Math.abs(") prepared in
  prepared.

Definition generateLatex (input result : jsstring) : jsstring :=
  input ++ lit " = " ++ result.

(* ====================================================================== *)
(** * utils.ts *)
(* ====================================================================== *)

(** The argument of [formatNumber]: [number | string]. *)
Inductive NumberOrString :=
| OfNumber (v : float)
| OfString (s : jsstring).

(** INFINITY, U+221E. *)
Definition infinity_char : codeunit := 8734%N.

Fixpoint dropZeros (s : jsstring) : jsstring :=
  match s with
  | c :: s' => if (c =? 48)%N then dropZeros s' else s
  | [] => []
  end.

(** [s.replace(/\.?0+$/, '')]: the leftmost match is the whole run of
    zeros that ends the text, with the point before it when there is one. *)
Definition stripTrailingZeros (s : jsstring) : jsstring :=
  match rev s with
  | c :: _ =>
      if (c =? 48)%N then
        match dropZeros (rev s) with
        | d :: r => if (d =? 46)%N then rev r else rev (d :: r)
        | [] => []
        end
      else s
  | [] => s
  end.

(** The literal [1e-7], that is the float nearest to it. *)
Definition tenToMinus7 : float := 0x1.ad7f29abcaf48p-24%float.

Definition formatNumber (value : NumberOrString) : jsstring :=
  match value with
  | OfString s => s
  | OfNumber value =>
      if negb (isFinite value) then
        if PrimFloat.eqb value infinity then [infinity_char]
        else if PrimFloat.eqb value neg_infinity then lit "-" ++ [infinity_char]
        else lit "Error"
      else
        let str := Number_toString value in
        if isInteger value || (length str <? 15)%nat then str
        else if PrimFloat.ltb 1e10 (PrimFloat.abs value)
                || (PrimFloat.ltb (PrimFloat.abs value) tenToMinus7
                    && negb (PrimFloat.eqb value 0))
        then toExponential 10 value
        else stripTrailingZeros (toPrecision 10 value)
  end.

Definition isOperator (value : jsstring) : bool :=
  includes [lit "+"; lit "-"; lit "*"; lit "/"; lit "^"; lit "%"] value.

(* ====================================================================== *)
(** * store.ts: the session state *)
(* ====================================================================== *)

Record HistoryEntry := {
  entry_input : jsstring;
  entry_result : jsstring;
  entry_latex : option jsstring
}.

Record CalculatorState := {
  display : jsstring;
  input : jsstring;
  result : jsstring;
  latex : jsstring;
  memory : gmap jsstring jsstring;
  history : list HistoryEntry;
  mode : CalculatorMode;
  isShiftActive : bool;
  isInverseActive : bool;
  isHyperbolicActive : bool;
  precision : float;
  error : option jsstring
}.

(** One property of the partial state handed to zustand's [set]. *)
Inductive Field :=
| F_display (v : jsstring)
| F_input (v : jsstring)
| F_result (v : jsstring)
| F_latex (v : jsstring)
| F_memory (v : gmap jsstring jsstring)
| F_history (v : list HistoryEntry)
| F_mode (v : CalculatorMode)
| F_isShiftActive (v : bool)
| F_isInverseActive (v : bool)
| F_isHyperbolicActive (v : bool)
| F_precision (v : float)
| F_error (v : option jsstring).

Definition assign (s : CalculatorState) (f : Field) : CalculatorState :=
  let d := display s in
  let i := input s in
  let r := result s in
  let l := latex s in
  let m := memory s in
  let h := history s in
  let mo := mode s in
  let sh := isShiftActive s in
  let iv := isInverseActive s in
  let hy := isHyperbolicActive s in
  let p := precision s in
  let e := error s in
  match f with
  | F_display v => Build_CalculatorState v i r l m h mo sh iv hy p e
  | F_input v => Build_CalculatorState d v r l m h mo sh iv hy p e
  | F_result v => Build_CalculatorState d i v l m h mo sh iv hy p e
  | F_latex v => Build_CalculatorState d i r v m h mo sh iv hy p e
  | F_memory v => Build_CalculatorState d i r l v h mo sh iv hy p e
  | F_history v => Build_CalculatorState d i r l m v mo sh iv hy p e
  | F_mode v => Build_CalculatorState d i r l m h v sh iv hy p e
  | F_isShiftActive v => Build_CalculatorState d i r l m h mo v iv hy p e
  | F_isInverseActive v => Build_CalculatorState d i r l m h mo sh v hy p e
  | F_isHyperbolicActive v => Build_CalculatorState d i r l m h mo sh iv v p e
  | F_precision v => Build_CalculatorState d i r l m h mo sh iv hy v e
  | F_error v => Build_CalculatorState d i r l m h mo sh iv hy p v
  end.

(** [set(partial)]: the listed properties are merged into the state, the
    others are kept. *)
Definition set (partial : list Field) (state : CalculatorState)
  : CalculatorState :=
  fold_left assign partial state.

Definition initialState : CalculatorState := {|
  display := lit "0";
  input := [];
  result := [];
  latex := [];
  memory := ∅;
  history := [];
  mode := DEG;
  isShiftActive := false;
  isInverseActive := false;
  isHyperbolicActive := false;
  precision := 10%float;
  error := None
|}.

(* ====================================================================== *)
(** * The memory bank, a plain object *)
(* ====================================================================== *)

(** The bank is an object literal, so [memory[key]] is an ordinary property
    read: the bank's own slot when it has one, and otherwise what
    [Object.prototype] has under that name.  The own slots are the [gmap];
    the spread copy and [delete] touch own slots only, and a computed key
    in an object literal defines an own slot, also for [__proto__]. *)

(** What a plain object inherits: built-in functions, and the prototype
    object itself under [__proto__]. *)
Inductive Inherited :=
| NativeFunction
| PrototypeObject.

Definition nativeFunctionNames : list jsstring :=
  [lit "constructor"; lit "hasOwnProperty"; lit "isPrototypeOf";
   lit "propertyIsEnumerable"; lit "toLocaleString"; lit "toString";
   lit "valueOf"; lit "__defineGetter__"; lit "__defineSetter__";
   lit "__lookupGetter__"; lit "__lookupSetter__"].

(** The properties of [Object.prototype] (ECMA-262 20.1.3 and B.2.2). *)
Definition objectPrototype (key : jsstring) : option Inherited :=
  if includes nativeFunctionNames key then Some NativeFunction
  else if eqs key (lit "__proto__") then Some PrototypeObject
  else None.

(** The value of [memory[key]]. *)
Inductive Lookup :=
| Own (text : jsstring)
| FromPrototype (v : Inherited)
| Undefined.

Definition memoryAt (m : gmap jsstring jsstring) (key : jsstring) : Lookup :=
  match m !! key with
  | Some text => Own text
  | None =>
      match objectPrototype key with
      | Some v => FromPrototype v
      | None => Undefined
      end
  end.

(** [ToBoolean]: functions and objects are truthy. *)
Definition truthyAt (value : Lookup) : bool :=
  match value with
  | Own text => truthy text
  | FromPrototype _ => true
  | Undefined => false
  end.

(** [ToString], where the language fixes it: the prototype object reads
    [[object Object]]; the text of a built-in function is left to the
    implementation. *)
Definition toStringAt (value : Lookup) : option jsstring :=
  match value with
  | Own text => Some text
  | FromPrototype PrototypeObject => Some (lit "[object Object]")
  | FromPrototype NativeFunction => None
  | Undefined => Some (lit "undefined")
  end.

(** [parseFloat(memory[key])]: the text of a function or of an object
    starts with no number, nor does [undefined]. *)
Definition parseFloatAt (value : Lookup) : float :=
  match value with
  | Own text => parseFloat text
  | FromPrototype _ => nan
  | Undefined => nan
  end.

(* ====================================================================== *)
(** * store.ts: the actions *)
(* ====================================================================== *)

Section Actions.

(** The evaluator the page runs on:
    [new Decimal(eval(sanitizedInput)).toString()]. *)
Variable ev : Evaluator.

Definition appendToInput (value : jsstring) (state : CalculatorState)
  : CalculatorState :=
  if truthy (result state) && negb (isNaN (StringToNumber value))
     && negb (isOperator value)
  then set [F_input value; F_display value; F_result []] state
  else if truthy (result state) && isOperator value
  then set [F_input (result state ++ value);
            F_display (result state ++ value);
            F_result []] state
  else
    let newInput := input state ++ value in
    set [F_input newInput; F_display newInput; F_error None] state.

Definition clearInput (state : CalculatorState) : CalculatorState :=
  set [F_input []; F_display (lit "0"); F_error None] state.

Definition clearAll (state : CalculatorState) : CalculatorState :=
  set [F_input []; F_display (lit "0"); F_result []; F_latex [];
       F_error None] state.

Definition calculate (state : CalculatorState) : CalculatorState :=
  if negb (truthy (input state)) then state else
  let sanitizedInput :=
    prepareInputForCalculation (input state) (mode state) in
  match ev sanitizedInput with
  | Some decimal =>
      let formattedResult := formatNumber (OfString decimal) in
      set [F_result formattedResult;
           F_display formattedResult;
           F_latex (generateLatex (input state) formattedResult);
           F_history
             (take 100
                ({| entry_input := input state;
                    entry_result := formattedResult;
                    entry_latex :=
                      Some (generateLatex (input state) formattedResult) |}
                 :: history state));
           F_error None] state
  | None => set [F_error (Some (lit "Error in calculation"))] state
  end.

Definition setMode (m : CalculatorMode) (state : CalculatorState)
  : CalculatorState :=
  set [F_mode m] state.

Definition toggleShift (state : CalculatorState) : CalculatorState :=
  set [F_isShiftActive (negb (isShiftActive state))] state.

Definition toggleInverse (state : CalculatorState) : CalculatorState :=
  set [F_isInverseActive (negb (isInverseActive state))] state.

Definition toggleHyperbolic (state : CalculatorState) : CalculatorState :=
  set [F_isHyperbolicActive (negb (isHyperbolicActive state))] state.

(** [a || b] on strings. *)
Definition orElse (a b : jsstring) : jsstring := if truthy a then a else b.

(** [ToBoolean] of a value of type [string | undefined]. *)
Definition truthyOpt (v : option jsstring) : bool :=
  match v with
  | Some s => truthy s
  | None => false
  end.

(** The text of a [string | undefined] where a string is used;
    [undefined] and the empty string are both falsy, and [parseFloat]
    gives [NaN] on both. *)
Definition textOf (v : option jsstring) : jsstring := default [] v.

(** [value] is the optional second argument.  The slot is read with
    [memory[key]], which also finds what the bank inherits. *)
Definition storeInMemory (key : jsstring) (value : option jsstring)
  (state : CalculatorState) : CalculatorState :=
  let valueToStore :=
    orElse (textOf value)
      (orElse (result state) (orElse (display state) (input state))) in
  if truthy valueToStore then
    if negb (truthyOpt value) && truthyAt (memoryAt (memory state) key) then
      let currentValue := parseFloatAt (memoryAt (memory state) key) in
      let newValue := PrimFloat.add currentValue (parseFloat valueToStore) in
      set [F_memory (<[key := Number_toString newValue]> (memory state))] state
    else
      set [F_memory (<[key := valueToStore]> (memory state))] state
  else state.

(** The fields [input] and [display] hold strings.  With an inherited
    [value] the branch [input: value] puts a function or an object there,
    which is no [CalculatorState]; the other branch appends the text of
    [value], which the language fixes for the prototype object and leaves
    to the implementation for a built-in function.  The result is [None]
    where the outcome is no state or is not determined. *)
Definition recallFromMemory (key : jsstring) (state : CalculatorState)
  : option CalculatorState :=
  let value := memoryAt (memory state) key in
  if truthyAt value then
    if truthy (result state)
    then
      match value with
      | Own text =>
          Some (set [F_input text; F_display text; F_result []] state)
      | _ => None
      end
    else
      match toStringAt value with
      | Some text =>
          Some (set [F_input (input state ++ text);
                     F_display (input state ++ text)] state)
      | None => None
      end
  else Some state.

Definition clearMemory (key : option jsstring) (state : CalculatorState)
  : CalculatorState :=
  if truthyOpt key
  then set [F_memory (delete (textOf key) (memory state))] state
  else set [F_memory ∅] state.

Definition clearHistory (state : CalculatorState) : CalculatorState :=
  set [F_history []] state.

Definition setPrecision (p : float) (state : CalculatorState)
  : CalculatorState :=
  set [F_precision p] state.

Definition backspace (state : CalculatorState) : CalculatorState :=
  if negb (truthy (input state)) then state else
  let newInput := sliceDropLast (input state) in
  set [F_input newInput; F_display (orElse newInput (lit "0"));
       F_result []; F_error None] state.

(** The actions of the store, and the state after one of them. *)
Inductive Action :=
| AppendToInput (value : jsstring)
| ClearInput
| ClearAll
| Calculate
| SetMode (m : CalculatorMode)
| ToggleShift
| ToggleInverse
| ToggleHyperbolic
| StoreInMemory (key : jsstring) (value : option jsstring)
| RecallFromMemory (key : jsstring)
| ClearMemory (key : option jsstring)
| ClearHistory
| SetPrecision (p : float)
| Backspace.

Definition step (state : CalculatorState) (a : Action)
  : option CalculatorState :=
  match a with
  | AppendToInput value => Some (appendToInput value state)
  | ClearInput => Some (clearInput state)
  | ClearAll => Some (clearAll state)
  | Calculate => Some (calculate state)
  | SetMode m => Some (setMode m state)
  | ToggleShift => Some (toggleShift state)
  | ToggleInverse => Some (toggleInverse state)
  | ToggleHyperbolic => Some (toggleHyperbolic state)
  | StoreInMemory key value => Some (storeInMemory key value state)
  | RecallFromMemory key => recallFromMemory key state
  | ClearMemory key => Some (clearMemory key state)
  | ClearHistory => Some (clearHistory state)
  | SetPrecision p => Some (setPrecision p state)
  | Backspace => Some (backspace state)
  end.

Fixpoint run (actions : list Action) (state : CalculatorState)
  : option CalculatorState :=
  match actions with
  | [] => Some state
  | a :: rest =>
      match step state a with
      | Some state' => run rest state'
      | None => None
      end
  end.

(** The states the store can be in: the initial one, and what any action
    makes of a reachable one, as long as the outcome is a state, with
    strings in its text fields. *)
Inductive reachable : CalculatorState -> Prop :=
| reachable_initial : reachable initialState
| reachable_step state a state' :
    reachable state -> step state a = Some state' -> reachable state'.

End Actions.

(* ====================================================================== *)
(** * utils.ts: operator precedence *)
(* ====================================================================== *)

(** The [switch] of [getPrecedence]: [case] labels are compared with [===]. *)
Definition getPrecedence (operator : jsstring) : Z :=
  if eqs operator (lit "+") then 1
  else if eqs operator (lit "-") then 1
  else if eqs operator (lit "*") then 2
  else if eqs operator (lit "/") then 2
  else if eqs operator (lit "%") then 2
  else if eqs operator (lit "^") then 3
  else 0.

(* ====================================================================== *)
(** * Calculator.tsx: the handlers that call the store *)
(* ====================================================================== *)

Section Calculator.

Variable ev : Evaluator.

(** [key.match(/[0-9.]/)]: some character of the key name is a digit or a
    period. *)
Definition matchesDigitOrPeriod (key : jsstring) : bool :=
  existsb (fun c => isDigit c || (c =? 46)%N) key.

(** [key.match(/[+\-*/^%()]/)]. *)
Definition matchesOperatorOrParen (key : jsstring) : bool :=
  existsb (fun c => existsb (N.eqb c) [43; 45; 42; 47; 94; 37; 40; 41]%N) key.

(** [handleKeyDown], on the [key] of the keyboard event. *)
Definition handleKeyDown (key : jsstring) (state : CalculatorState)
  : CalculatorState :=
  if matchesDigitOrPeriod key then appendToInput key state
  else if matchesOperatorOrParen key then appendToInput key state
  else if eqs key (lit "Enter") then calculate ev state
  else if eqs key (lit "Escape") then clearAll state
  else if eqs key (lit "Backspace") then backspace state
  else state.

(** The [M-] button: the slot [M] becomes its value (or 0) minus the number
    on the display, passed to [storeInMemory] as an explicit value. *)
Definition memoryMinus (state : CalculatorState) : CalculatorState :=
  let currentValue := parseFloat (display state) in
  if negb (isNaN currentValue) then
    let memoryValue :=
      parseFloat (if truthyOpt (memory state !! lit "M")
                  then textOf (memory state !! lit "M")
                  else lit "0") in
    storeInMemory (lit "M")
      (Some (Number_toString (PrimFloat.sub memoryValue currentValue))) state
  else state.

(** A click on an entry of the history list. *)
Definition clickHistoryEntry (item : HistoryEntry) (state : CalculatorState)
  : CalculatorState :=
  appendToInput (entry_result item) state.

End Calculator.

(* ====================================================================== *)
(** * Auxiliary definitions and scenarios *)
(* ====================================================================== *)

(** [lacks c s]: the code unit [c] does not occur in [s]. *)
Definition lacks (c : codeunit) (s : jsstring) : bool :=
  forallb (fun x => negb (x =? c)%N) s.

(** The code unit of the letter [e]. *)
Definition letter_e : codeunit := 101%N.

(** The entry [calculate] files for an input and its formatted result. *)
Definition entryOf (input formattedResult : jsstring) : HistoryEntry :=
  {| entry_input := input;
     entry_result := formattedResult;
     entry_latex := Some (generateLatex input formattedResult) |}.

(** The keys [2], [+], [2] and [=] on a fresh calculator. *)
Definition twoPlusTwo : list Action :=
  [AppendToInput (lit "2"); AppendToInput (lit "+"); AppendToInput (lit "2");
   Calculate].

(** Appending the tokens one by one, as key presses do. *)
Definition appendAll (tokens : list jsstring) (state : CalculatorState)
  : CalculatorState :=
  fold_left (fun s token => appendToInput token s) tokens state.

(** The state after [2], [+], [2] and [=]. *)
Definition afterTwoPlusTwo : CalculatorState :=
  calculate fragmentEvaluator
    (appendAll [lit "2"; lit "+"; lit "2"] initialState).

(** The keys [1], [/], [0]. *)
Definition oneOverZero : CalculatorState :=
  appendAll [lit "1"; lit "/"; lit "0"] initialState.

(** The keys [sin(], [3], [0], [)] on a fresh calculator (mode DEG). *)
Definition sineOfThirty : CalculatorState :=
  appendAll [lit "sin("; lit "3"; lit "0"; lit ")"] initialState.

(** [2+2 =], then [)] and [=] again: the second calculation, of ["2+2)"],
    fails while the result of the first is still there. *)
Definition failedAfterResult : CalculatorState :=
  calculate fragmentEvaluator
    (appendToInput (lit ")") afterTwoPlusTwo).

(** The Number written [123456789012.345]. *)
Definition largeFraction : float := parseFloat (lit "123456789012.345").

(** The Number written [0.00000001]. *)
Definition tenToMinus8 : float := parseFloat (lit "0.00000001").



(** [occurs pat s]: the text [pat] occurs somewhere in [s]. *)
Fixpoint occurs (pat s : jsstring) : bool :=
  startsWith pat s
  || match s with
     | [] => false
     | _ :: s' => occurs pat s'
     end.

(** The ten patterns [prepareInputForCalculation] rewrites. *)
Definition rewrittenPatterns : list jsstring :=
  [lit "^"; [pi_char]; lit "e"; lit "sin("; lit "cos("; lit "tan(";
   lit "log("; lit "ln("; lit "sqrt("; lit "abs("].

(** The display shows the input, or the result, or ["0"] for an empty
    input. *)
Definition displayMirrors (state : CalculatorState) : Prop :=
  display state = input state
  \/ display state = result state
  \/ (display state = lit "0" /\ input state = []).

(** An entry as [calculate] writes it: a non-empty input and the annotation
    made of the input and the result. *)
Definition wellFormedEntry (e : HistoryEntry) : Prop :=
  truthy (entry_input e) = true
  /\ entry_latex e = Some (entry_input e ++ lit " = " ++ entry_result e).

(** The Number written [1234567890.1234]. *)
Definition tenDigitFraction : float := parseFloat (lit "1234567890.1234").

(** No slot of the bank holds the empty string. *)
Definition slotsFilled (m : gmap jsstring jsstring) : Prop :=
  map_Forall (fun _ value => truthy value = true) m.

(** [2+2 =] and [M+]. *)
Definition storedFour : CalculatorState :=
  storeInMemory (lit "M") None afterTwoPlusTwo.

(** No occurrence of [pat] starts inside [p], whatever text follows [p]. *)
Fixpoint noMatchInside (pat p : jsstring) : bool :=
  match p with
  | [] => true
  | _ :: p' =>
      negb (startsWith (take (length p) pat) p) && noMatchInside pat p'
  end.

(** The keys [cos(], [0], [)] on a fresh calculator (mode DEG). *)
Definition cosineOfZero : CalculatorState :=
  appendAll [lit "cos("; lit "0"; lit ")"] initialState.

(* ====================================================================== *)
(** * The built-in functions on sample values *)
(* ====================================================================== *)

Example Number_toString_samples :
  map (fun text => Number_toString (parseFloat (lit text)))
    ["0"; "-0"; "4"; "0.5"; "123456789012345680000"; "1e21"; "0.000001";
     "0.0000001"; "-1234.5678"; "5e-324"; "1.7976931348623157e308";
     "9007199254740993"; "1e400"; "-Infinity"; "abc"]%string
  = map lit
      ["0"; "0"; "4"; "0.5"; "123456789012345680000"; "1e+21"; "0.000001";
       "1e-7"; "-1234.5678"; "5e-324"; "1.7976931348623157e+308";
       "9007199254740992"; "Infinity"; "-Infinity"; "NaN"]%string.
Proof. vm_compute. reflexivity. Qed.

Example Number_toString_of_sum :
  Number_toString
    (PrimFloat.add (parseFloat (lit "0.1")) (parseFloat (lit "0.2")))
  = lit "0.30000000000000004".
Proof. vm_compute. reflexivity. Qed.

Example toExponential_and_toPrecision_samples :
  toExponential 10 (parseFloat (lit "1.2345678901234e-8")) = lit "1.2345678901e-8"
  /\ toExponential 2 (parseFloat (lit "9.999")) = lit "1.00e+1"
  /\ toExponential 10 0 = lit "0.0000000000e+0"
  /\ toPrecision 10 (parseFloat (lit "33333.333333333336")) = lit "33333.33333"
  /\ toPrecision 10 (parseFloat (lit "0.1")) = lit "0.1000000000"
  /\ toPrecision 10 (parseFloat (lit "123456789012.5")) = lit "1.234567890e+11"
  /\ toPrecision 3 (parseFloat (lit "-99.96")) = lit "-100".
Proof. repeat split; vm_compute; reflexivity. Qed.

Example StringToNumber_samples :
  map (fun text => isNaN (StringToNumber (lit text)))
    ["5"; ""; " 12 "; "0x1F"; "1e3"; "Infinity"; "."; "+"; "sin("; "("; "1 2";
     "-0x1"]%string
  = [false; false; false; false; false; false; true; true; true; true; true;
     true].
Proof. vm_compute. reflexivity. Qed.

Example evalDecimal_samples :
  map (fun text => evalDecimal (lit text))
    ["2+2"; "1/0"; "-1/0"; "1/0-1/0"; "(1+2)*3"; "10/4"; "0.1+0.2"; "1 - -2";
     "Math.abs(-2.5, 7)*2"; "Math.sin()"; "1,2"; ""; "1+"; "(1"; "1 2";
     "-2**2"; "2Math.E3"; "Math.sin()30)"; "Math.sin(1)"; "2**3"; "1//0";
     "x"]%string
  = [Returns (lit "4"); Returns (lit "Infinity"); Returns (lit "-Infinity");
     Returns (lit "NaN"); Returns (lit "9"); Returns (lit "2.5");
     Returns (lit "0.30000000000000004"); Returns (lit "3");
     Returns (lit "5"); Returns (lit "NaN"); Returns (lit "2"); Throws;
     Throws; Throws; Throws; Throws; Throws; Throws; Unmodelled; Unmodelled;
     Unmodelled; Unmodelled].
Proof. vm_compute. reflexivity. Qed.

Example formatNumber_samples :
  formatNumber (OfNumber infinity) = [infinity_char]
  /\ formatNumber (OfNumber neg_infinity) = lit "-" ++ [infinity_char]
  /\ formatNumber (OfNumber nan) = lit "Error"
  /\ formatNumber (OfNumber 42) = lit "42"
  /\ formatNumber (OfNumber (parseFloat (lit "33333.333333333336")))
     = lit "33333.33333"
  /\ formatNumber (OfNumber (parseFloat (lit "0.30000000000000004")))
     = lit "0.3"
  /\ formatNumber (OfString (lit "33333.333333333336"))
     = lit "33333.333333333336".
Proof. repeat split; vm_compute; reflexivity. Qed.

(** [2+2 =] on a fresh calculator: the result is ["4"] and the history
    gains the entry for it. *)
Example two_plus_two :
  let state := afterTwoPlusTwo in
  run fragmentEvaluator twoPlusTwo initialState = Some state
  /\ input state = lit "2+2"
  /\ result state = lit "4"
  /\ display state = lit "4"
  /\ latex state = lit "2+2 = 4"
  /\ error state = None
  /\ history state
     = [{| entry_input := lit "2+2"; entry_result := lit "4";
           entry_latex := Some (lit "2+2 = 4") |}].
Proof.
  cbv zeta. split; [vm_compute; reflexivity|].
  repeat apply conj; vm_compute; reflexivity.
Qed.

(* ====================================================================== *)
(** * Properties of the rewriter *)
(* ====================================================================== *)

Lemma lacks_app c s t : lacks c (s ++ t) = lacks c s && lacks c t.
Proof. apply forallb_app. Qed.

Lemma lacks_replaceAllFrom c pat rep :
  lacks c rep = true ->
  forall s skip, lacks c s = true -> lacks c (replaceAllFrom pat rep skip s) = true.
Proof.
  intros Hrep s.
  induction s as [|x s IH]; intros skip Hs; [reflexivity|].
  simpl in Hs. apply andb_prop in Hs as [Hx Hs].
  cbn [replaceAllFrom].
  destruct skip as [|k]; [|now apply IH].
  destruct (startsWith pat (x :: s)).
  - rewrite lacks_app, Hrep. now apply IH.
  - simpl. rewrite Hx. now apply IH.
Qed.

(** Replacing a one-character pattern rewrites the text character by
    character. *)
Lemma replaceAll_char c rep s :
  replaceAll [c] rep s = flat_map (fun x => if (x =? c)%N then rep else [x]) s.
Proof.
  unfold replaceAll.
  induction s as [|x s IH]; [reflexivity|].
  cbn [replaceAllFrom startsWith flat_map length Nat.pred].
  rewrite andb_true_r, N.eqb_sym.
  destruct (x =? c)%N; simpl; now rewrite IH.
Qed.

Lemma lacks_replaceAll_char c rep s :
  lacks c rep = true -> lacks c (replaceAll [c] rep s) = true.
Proof.
  intros Hrep. rewrite replaceAll_char.
  induction s as [|x s IH]; [reflexivity|].
  simpl. rewrite lacks_app, IH, andb_true_r.
  destruct (x =? c)%N eqn:E; [assumption|].
  simpl. now rewrite E.
Qed.

Lemma lacks_spec c s : lacks c s = true -> ~ In c s.
Proof.
  unfold lacks. rewrite forallb_forall. intros H Hin.
  specialize (H c Hin). now rewrite N.eqb_refl in H.
Qed.

Lemma prepare_lacks_e input mode :
  lacks letter_e (prepareInputForCalculation input mode) = true.
Proof.
  unfold prepareInputForCalculation.
  do 7 (apply lacks_replaceAllFrom; [now destruct mode|]).
  now apply (lacks_replaceAll_char letter_e).
Qed.

Lemma replaceAll_absent pat rep s :
  occurs pat s = false -> replaceAll pat rep s = s.
Proof.
  unfold replaceAll.
  induction s as [|c s IH]; intros Hocc; [reflexivity|].
  cbn [occurs] in Hocc. apply orb_false_elim in Hocc as [Hhere Hlater].
  cbn [replaceAllFrom]. rewrite Hhere. now rewrite IH.
Qed.

Lemma startsWith_take_false pat q s :
  startsWith (take (length q) pat) q = false -> startsWith pat (q ++ s) = false.
Proof.
  revert q. induction pat as [|a pat IH]; intros q H.
  - destruct q; discriminate.
  - destruct q as [|b q]; [discriminate|].
    cbn in H |- *. destruct (a =? b)%N; [|reflexivity].
    cbn in H |- *. now apply IH.
Qed.

Lemma replaceAll_prefix pat rep p s :
  noMatchInside pat p = true ->
  replaceAllFrom pat rep 0 (p ++ s) = p ++ replaceAllFrom pat rep 0 s.
Proof.
  induction p as [|c p IH]; intros H; [reflexivity|].
  cbn [noMatchInside] in H. apply andb_prop in H as [Hhere Hrest].
  apply negb_true_iff in Hhere.
  change ((c :: p) ++ s) with (c :: (p ++ s)).
  cbn [replaceAllFrom].
  change (c :: (p ++ s)) with ((c :: p) ++ s).
  rewrite (startsWith_take_false pat (c :: p) s Hhere).
  cbn [app]. now rewrite IH.
Qed.

Lemma prepare_absent input mode :
  forallb (fun pat => negb (occurs pat input)) rewrittenPatterns = true ->
  prepareInputForCalculation input mode = input.
Proof.
  intros Hnone. unfold rewrittenPatterns in Hnone. cbn [forallb] in Hnone.
  repeat (apply andb_prop in Hnone as [?H Hnone]).
  repeat match goal with
         | H : negb _ = true |- _ => apply negb_true_iff in H
         end.
  unfold prepareInputForCalculation.
  do 10 (rewrite (replaceAll_absent _ _ input) by assumption).
  reflexivity.
Qed.

(** A one-character pattern is replaced on each side of a character
    independently. *)
Lemma replaceAll_char_other c rep d x y :
  (d =? c)%N = false ->
  replaceAll [c] rep (x ++ d :: y)
  = replaceAll [c] rep x ++ d :: replaceAll [c] rep y.
Proof.
  intros Hd. rewrite !replaceAll_char, flat_map_app. cbn [flat_map].
  now rewrite Hd.
Qed.

Lemma replaceAll_char_here c rep x y :
  replaceAll [c] rep (x ++ c :: y)
  = replaceAll [c] rep x ++ rep ++ replaceAll [c] rep y.
Proof.
  rewrite !replaceAll_char, flat_map_app. cbn [flat_map].
  now rewrite N.eqb_refl.
Qed.

Lemma startsWith_length pat s :
  startsWith pat s = true -> (length pat <= length s)%nat.
Proof.
  revert s. induction pat as [|a pat IH]; intros s H; [simpl; lia|].
  destruct s as [|b s]; [discriminate|].
  cbn [startsWith] in H. apply andb_prop in H as [_ H].
  specialize (IH s H). simpl. lia.
Qed.

(** A match cannot run into a character the pattern does not have. *)
Lemma startsWith_before c pat x z :
  lacks c pat = true -> startsWith pat (x ++ c :: z) = startsWith pat x.
Proof.
  revert x. induction pat as [|a pat IH]; intros x Hc; [reflexivity|].
  cbn [lacks forallb] in Hc. apply andb_prop in Hc as [Ha Hc].
  apply negb_true_iff in Ha.
  destruct x as [|b x].
  - cbn [app startsWith]. now rewrite Ha.
  - cbn [app startsWith]. now rewrite (IH x Hc).
Qed.

Lemma replaceAllFrom_before c pat rep z :
  lacks c pat = true ->
  forall x k, (k <= length x)%nat ->
  replaceAllFrom pat rep k (x ++ c :: z)
  = replaceAllFrom pat rep k x ++ replaceAllFrom pat rep 0 (c :: z).
Proof.
  intros Hc x. induction x as [|b x IH]; intros k Hk.
  - assert (k = 0%nat) by (simpl in Hk; lia). now subst k.
  - change ((b :: x) ++ c :: z) with (b :: (x ++ c :: z)).
    destruct k as [|k].
    + cbn [replaceAllFrom].
      change (b :: (x ++ c :: z)) with ((b :: x) ++ c :: z).
      rewrite (startsWith_before c pat (b :: x) z Hc).
      destruct (startsWith pat (b :: x)) eqn:Hmatch.
      * apply startsWith_length in Hmatch. cbn [length] in Hmatch.
        rewrite IH by lia. now rewrite app_assoc.
      * rewrite IH by lia. reflexivity.
    + cbn [replaceAllFrom]. apply IH. simpl in Hk. lia.
Qed.

(** A block of text that no match can touch splits the replacement in
    two: its first character is not in the pattern, and no match starts
    inside it. *)
Lemma replaceAll_around pat rep c block x y :
  lacks c pat = true ->
  noMatchInside pat (c :: block) = true ->
  replaceAll pat rep (x ++ (c :: block) ++ y)
  = replaceAll pat rep x ++ (c :: block) ++ replaceAll pat rep y.
Proof.
  intros Hc Hin. unfold replaceAll.
  change ((c :: block) ++ y) with (c :: (block ++ y)).
  rewrite (replaceAllFrom_before c pat rep (block ++ y) Hc x 0%nat) by lia.
  change (c :: (block ++ y)) with ((c :: block) ++ y).
  now rewrite (replaceAll_prefix pat rep (c :: block) y Hin).
Qed.

(** The rewrite acts on the two sides of an [e] independently, and puts
    [Math.E] between them. *)
Lemma prepare_around_e u v mode :
  prepareInputForCalculation (u ++ lit "e" ++ v) mode
  = prepareInputForCalculation u mode ++ lit "Math.E"
    ++ prepareInputForCalculation v mode.
Proof.
  unfold prepareInputForCalculation.
  change (lit "e" ++ v) with (letter_e :: v).
  rewrite (replaceAll_char_other 94%N (lit "**") letter_e) by reflexivity.
  rewrite (replaceAll_char_other pi_char (lit "Math.PI") letter_e)
    by reflexivity.
  rewrite (replaceAll_char_here letter_e (lit "Math.E")).
  change (lit "Math.E") with (77%N :: lit "ath.E").
  do 7 (rewrite (replaceAll_around _ _ 77%N (lit "ath.E"))
          by (vm_compute; reflexivity)).
  reflexivity.
Qed.

(** C10. The rewrite replaces every occurrence of the letter [e] by the
    Euler-constant token [Math.E], also inside a numeric literal in
    scientific notation.  Around any [e] of any input the rewritten text
    is the rewritten left side, [Math.E], and the rewritten right side;
    between two texts that hold none of the rewritten patterns (digits,
    say) the sides are kept as they are, so ["2e3"] becomes ["2Math.E3"]
    in every mode; and no [e] is left in the rewritten text. *)
Theorem rewrite_replaces_every_e :
  (forall u v mode,
     prepareInputForCalculation (u ++ lit "e" ++ v) mode
     = prepareInputForCalculation u mode ++ lit "Math.E"
       ++ prepareInputForCalculation v mode)
  /\ (forall u v mode,
        forallb (fun pat => negb (occurs pat u)) rewrittenPatterns = true ->
        forallb (fun pat => negb (occurs pat v)) rewrittenPatterns = true ->
        prepareInputForCalculation (u ++ lit "e" ++ v) mode
        = u ++ lit "Math.E" ++ v)
  /\ (forall mode,
        prepareInputForCalculation (lit "2e3") mode = lit "2Math.E3")
  /\ (forall input mode,
        ~ In letter_e (prepareInputForCalculation input mode)).
Proof.
  split; [|split; [|split]].
  - apply prepare_around_e.
  - intros u v mode Hu Hv.
    rewrite prepare_around_e.
    now rewrite (prepare_absent u mode Hu), (prepare_absent v mode Hv).
  - intros []; vm_compute; reflexivity.
  - intros input mode. apply lacks_spec, prepare_lacks_e.
Qed.

(* ====================================================================== *)
(** * Properties of the store *)
(* ====================================================================== *)

Section StoreLemmas.

Variable ev : Evaluator.

Lemma truthy_nonempty (s : jsstring) : truthy s = true <-> s <> [].
Proof. destruct s; simpl; split; congruence. Qed.

(** What a successful and a failed calculation leave. *)
Lemma calculate_success state decimal :
  truthy (input state) = true ->
  ev (prepareInputForCalculation (input state) (mode state)) = Some decimal ->
  calculate ev state
  = set [F_result decimal; F_display decimal;
         F_latex (generateLatex (input state) decimal);
         F_history (take 100 (entryOf (input state) decimal :: history state));
         F_error None] state.
Proof.
  intros Hin Hev. unfold calculate. now rewrite Hin, Hev.
Qed.

Lemma calculate_failure state :
  truthy (input state) = true ->
  ev (prepareInputForCalculation (input state) (mode state)) = None ->
  calculate ev state = set [F_error (Some (lit "Error in calculation"))] state.
Proof.
  intros Hin Hev. unfold calculate. now rewrite Hin, Hev.
Qed.

Lemma history_calculate state :
  history (calculate ev state) = history state
  \/ exists decimal,
       history (calculate ev state)
       = take 100 (entryOf (input state) decimal :: history state).
Proof.
  unfold calculate.
  destruct (truthy (input state)); [|now left].
  destruct (ev _) as [decimal|]; [right; now exists decimal | now left].
Qed.

(** What a recall that stays within the strings leaves: the state as it
    is, or a non-empty text put in the place of the input or after it. *)
Lemma recallFromMemory_outcome key state state' :
  recallFromMemory key state = Some state' ->
  state' = state
  \/ exists text,
       text <> []
       /\ (state' = set [F_input text; F_display text; F_result []] state
           \/ state' = set [F_input (input state ++ text);
                            F_display (input state ++ text)] state).
Proof.
  unfold recallFromMemory.
  destruct (memoryAt (memory state) key) as [text|[]|] eqn:Hat;
    cbn [truthyAt toStringAt].
  - destruct (truthy text) eqn:Htext; [|intros [= <-]; now left].
    apply truthy_nonempty in Htext.
    destruct (truthy (result state)); intros [= <-]; right; exists text;
      (split; [assumption|]); [now left | now right].
  - destruct (truthy (result state)); discriminate.
  - destruct (truthy (result state)); [discriminate|].
    intros [= <-]. right. exists (lit "[object Object]").
    split; [discriminate | now right].
  - intros [= <-]. now left.
Qed.

(** Every action other than a calculation keeps the history or empties it. *)
Lemma history_step state a state' :
  step ev state a = Some state' ->
  history state' = history state
  \/ history state' = []
  \/ exists decimal,
       history state'
       = take 100 (entryOf (input state) decimal :: history state).
Proof.
  destruct a; cbn [step]; try (intros [= <-]).
  - unfold appendToInput.
    repeat match goal with |- context [if ?b then _ else _] => destruct b end;
      now left.
  - now left.
  - now left.
  - destruct (history_calculate state) as [H|H]; [now left | now right; right].
  - now left.
  - now left.
  - now left.
  - now left.
  - unfold storeInMemory.
    repeat match goal with |- context [if ?b then _ else _] => destruct b end;
      now left.
  - intros Hrecall.
    destruct (recallFromMemory_outcome _ _ _ Hrecall) as [->|[text [_ [->| ->]]]];
      now left.
  - unfold clearMemory. destruct (truthyOpt _); now left.
  - now (right; left).
  - now left.
  - unfold backspace. destruct (truthy _); now left.
Qed.

Lemma step_history_bound state a state' :
  step ev state a = Some state' ->
  (length (history state) <= 100)%nat ->
  (length (history state') <= 100)%nat.
Proof.
  intros Hstep Hlen.
  destruct (history_step state a state' Hstep) as [H|[H|[decimal H]]];
    rewrite H.
  - assumption.
  - simpl; lia.
  - rewrite length_take. lia.
Qed.

Lemma reachable_history_bound state :
  reachable ev state -> (length (history state) <= 100)%nat.
Proof.
  induction 1 as [|state a state' _ IH Hstep].
  - simpl; lia.
  - now apply (step_history_bound state a).
Qed.

Lemma reachable_run actions state state' :
  reachable ev state -> run ev actions state = Some state' ->
  reachable ev state'.
Proof.
  revert state. induction actions as [|a actions IH]; intros state H Hrun.
  - injection Hrun as <-. exact H.
  - cbn [run] in Hrun. destruct (step ev state a) as [next|] eqn:Hstep;
      [|discriminate].
    apply (IH next); [|exact Hrun].
    now apply (reachable_step ev state a).
Qed.

End StoreLemmas.

Lemma reachable_afterTwoPlusTwo : reachable fragmentEvaluator afterTwoPlusTwo.
Proof.
  apply (reachable_run fragmentEvaluator twoPlusTwo initialState);
    [constructor | vm_compute; reflexivity].
Qed.

Lemma reachable_failedAfterResult :
  reachable fragmentEvaluator failedAfterResult.
Proof.
  apply (reachable_run fragmentEvaluator
           [AppendToInput (lit ")"); Calculate] afterTwoPlusTwo);
    [apply reachable_afterTwoPlusTwo | reflexivity].
Qed.

Lemma reachable_storedFour : reachable fragmentEvaluator storedFour.
Proof.
  apply (reachable_run fragmentEvaluator
           [StoreInMemory (lit "M") None] afterTwoPlusTwo);
    [apply reachable_afterTwoPlusTwo | reflexivity].
Qed.

(** Dropping the last of a full ledger: the first 99 entries stay. *)
Lemma take_full_ledger {A} (l : list A) (x : A) :
  length l = 100%nat -> take 100 (x :: l) = x :: removelast l.
Proof.
  intros Hlen. change (take 100 (x :: l)) with (x :: take 99 l).
  f_equal.
  destruct (exists_last (l := l)) as [l' [y ->]].
  { intros ->. discriminate. }
  rewrite removelast_last.
  rewrite length_app in Hlen. simpl in Hlen.
  rewrite take_app_length'; [reflexivity | lia].
Qed.

(** C3. In every reachable state the history holds at most 100 entries, and
    every action keeps it so in the state it leads to.  A successful calculation puts its entry in
    front of the earlier ones, which keep their order, and cuts the list at
    100: while there is room nothing is lost, and on a full ledger the last
    (oldest) entry is the one dropped. *)
Theorem history_ledger_invariant (ev : Evaluator) (state : CalculatorState) :
  reachable ev state ->
  (length (history state) <= 100)%nat
  /\ (forall a state',
        step ev state a = Some state' ->
        (length (history state') <= 100)%nat)
  /\ (forall decimal,
        truthy (input state) = true ->
        ev (prepareInputForCalculation (input state) (mode state)) = Some decimal ->
        history (calculate ev state)
        = take 100 (entryOf (input state) decimal :: history state)
        /\ ((length (history state) < 100)%nat ->
            history (calculate ev state)
            = entryOf (input state) decimal :: history state)
        /\ (length (history state) = 100%nat ->
            history (calculate ev state)
            = entryOf (input state) decimal :: removelast (history state))).
Proof.
  intros Hreach.
  pose proof (reachable_history_bound ev state Hreach) as Hbound.
  split; [exact Hbound|]. split.
  - intros a state' Hstep. now apply (step_history_bound ev state a).
  - intros decimal Hin Hev.
    rewrite (calculate_success ev state decimal Hin Hev).
    cbn [set fold_left assign history].
    split; [reflexivity|]. split.
    + intros Hlt. apply take_ge. simpl. lia.
    + intros Hfull. now apply take_full_ledger.
Qed.

Lemma history_ledger_invariant_witness :
  let state := afterTwoPlusTwo in
  (length (history state) <= 100)%nat
  /\ (forall a state',
        step fragmentEvaluator state a = Some state' ->
        (length (history state') <= 100)%nat)
  /\ (forall decimal,
        truthy (input state) = true ->
        fragmentEvaluator (prepareInputForCalculation (input state) (mode state))
        = Some decimal ->
        history (calculate fragmentEvaluator state)
        = take 100 (entryOf (input state) decimal :: history state)
        /\ ((length (history state) < 100)%nat ->
            history (calculate fragmentEvaluator state)
            = entryOf (input state) decimal :: history state)
        /\ (length (history state) = 100%nat ->
            history (calculate fragmentEvaluator state)
            = entryOf (input state) decimal :: removelast (history state))).
Proof.
  apply (history_ledger_invariant fragmentEvaluator afterTwoPlusTwo).
  apply reachable_afterTwoPlusTwo.
Defined.

(** Text appended to the input makes another state. *)
Lemma appended_input_differs state text :
  text <> [] ->
  set [F_input (input state ++ text); F_display (input state ++ text)] state
  <> state.
Proof.
  intros Htext Heq. apply (f_equal input) in Heq.
  cbn [set fold_left assign input] in Heq.
  rewrite <- (app_nil_r (input state)) in Heq at 2.
  apply app_inv_head in Heq. congruence.
Qed.

Lemma memoryAt_own m key text :
  m !! key = Some text -> memoryAt m key = Own text.
Proof. intros H. unfold memoryAt. now rewrite H. Qed.

Lemma memoryAt_undefined m key :
  m !! key = None -> objectPrototype key = None -> memoryAt m key = Undefined.
Proof. intros H Hproto. unfold memoryAt. now rewrite H, Hproto. Qed.

Lemma memoryAt_inherited m key v :
  m !! key = None -> objectPrototype key = Some v ->
  memoryAt m key = FromPrototype v.
Proof. intros H Hproto. unfold memoryAt. now rewrite H, Hproto. Qed.

(** A recall of a name the bank has no slot for: nothing happens when the
    name is no property of [Object.prototype] either; otherwise the state
    does not stay as it is. *)
Lemma recall_missing state key :
  memory state !! key = None -> objectPrototype key = None ->
  recallFromMemory key state = Some state.
Proof.
  intros H Hproto. unfold recallFromMemory.
  now rewrite (memoryAt_undefined _ _ H Hproto).
Qed.

Lemma recall_inherited state key :
  memory state !! key = None -> objectPrototype key <> None ->
  recallFromMemory key state <> Some state.
Proof.
  intros H Hproto. unfold recallFromMemory.
  destruct (objectPrototype key) as [v|] eqn:Hv; [|congruence].
  rewrite (memoryAt_inherited _ _ v H Hv). cbn [truthyAt].
  destruct (truthy (result state)); [discriminate|].
  destruct v; cbn [toStringAt]; [discriminate|].
  intros [= Heq]. now apply appended_input_differs in Heq.
Qed.




Lemma appendToInput_no_result state token :
  result state = [] ->
  input (appendToInput token state) = input state ++ token
  /\ result (appendToInput token state) = [].
Proof.
  intros Hres. unfold appendToInput. rewrite Hres. simpl. now rewrite Hres.
Qed.

Lemma appendAll_no_result tokens : forall state,
  result state = [] ->
  input (appendAll tokens state) = input state ++ concat tokens.
Proof.
  induction tokens as [|token tokens IH]; intros state Hres.
  - simpl. now rewrite app_nil_r.
  - destruct (appendToInput_no_result state token Hres) as [Hin Hres'].
    change (appendAll (token :: tokens) state)
      with (appendAll tokens (appendToInput token state)).
    rewrite (IH _ Hres'), Hin. simpl. now rewrite <- app_assoc.
Qed.

Lemma input_backspace state :
  input (backspace state) = sliceDropLast (input state).
Proof.
  unfold backspace. destruct (input state) as [|c s] eqn:E; simpl.
  - now rewrite E.
  - reflexivity.
Qed.

Lemma input_backspaces n state :
  input (Nat.iter n backspace state)
  = take (length (input state) - n) (input state).
Proof.
  induction n as [|n IH]; simpl.
  - rewrite Nat.sub_0_r. now rewrite firstn_all.
  - rewrite input_backspace, IH. unfold sliceDropLast.
    rewrite length_take, take_take. f_equal. lia.
Qed.

Lemma length_concat_singletons (tokens : list jsstring) :
  Forall (fun token => length token = 1%nat) tokens ->
  length (concat tokens) = length tokens.
Proof.
  induction 1 as [|token tokens Hone _ IH]; simpl; [reflexivity|].
  rewrite length_app, Hone, IH. reflexivity.
Qed.

(** C8. From a state without a result, appending [n] one-character tokens
    and then pressing backspace [n] times gives back the input there was. *)
Theorem append_backspace_roundtrip (state : CalculatorState)
  (tokens : list jsstring) :
  result state = [] ->
  Forall (fun token => length token = 1%nat) tokens ->
  input (Nat.iter (length tokens) backspace (appendAll tokens state))
  = input state.
Proof.
  intros Hres Hone.
  rewrite input_backspaces, (appendAll_no_result tokens state Hres).
  rewrite length_app, (length_concat_singletons tokens Hone).
  replace (length (input state) + length tokens - length tokens)%nat
    with (length (input state)) by lia.
  apply take_app_length.
Qed.

Lemma append_backspace_roundtrip_witness :
  let state := appendToInput (lit "7") initialState in
  let tokens := [lit "+"; [pi_char]; lit "e"; lit "("] in
  result state = []
  /\ input (appendAll tokens state) = lit "7+" ++ [pi_char] ++ lit "e("
  /\ input (Nat.iter (length tokens) backspace (appendAll tokens state))
     = input state.
Proof.
  split; [reflexivity|]. split; [reflexivity|].
  apply (append_backspace_roundtrip (appendToInput (lit "7") initialState)
           [lit "+"; [pi_char]; lit "e"; lit "("]).
  - reflexivity.
  - repeat constructor.
Defined.

(** C9. [formatNumber] gives a string argument back as it is, and a string
    is what [calculate] hands to it: after every successful calculation the
    result, the display and the new history entry hold the decimal's text
    verbatim; the number branch of [formatNumber] plays no part. *)
Theorem calculation_keeps_decimal_text :
  (forall s, formatNumber (OfString s) = s)
  /\ (forall (ev : Evaluator) state decimal,
        truthy (input state) = true ->
        ev (prepareInputForCalculation (input state) (mode state)) = Some decimal ->
        result (calculate ev state) = decimal
        /\ display (calculate ev state) = decimal
        /\ head (history (calculate ev state))
           = Some (entryOf (input state) decimal)).
Proof.
  split; [reflexivity|].
  intros ev state decimal Hin Hev.
  rewrite (calculate_success ev state decimal Hin Hev).
  repeat split.
Qed.

Lemma calculation_keeps_decimal_text_witness :
  let state := appendAll [lit "1"; lit "0"; lit "/"; lit "4"] initialState in
  fragmentEvaluator (prepareInputForCalculation (input state) (mode state))
  = Some (lit "2.5")
  /\ result (calculate fragmentEvaluator state) = lit "2.5"
  /\ display (calculate fragmentEvaluator state) = lit "2.5"
  /\ head (history (calculate fragmentEvaluator state))
     = Some (entryOf (input state) (lit "2.5")).
Proof.
  split; [vm_compute; reflexivity|].
  apply (proj2 calculation_keeps_decimal_text fragmentEvaluator
           (appendAll [lit "1"; lit "0"; lit "/"; lit "4"] initialState)
           (lit "2.5")).
  - reflexivity.
  - vm_compute; reflexivity.
Defined.

(* ====================================================================== *)
(** * Calculations on concrete inputs *)
(* ====================================================================== *)

Lemma conforms_returns (ev : Evaluator) src decimal :
  conforms ev -> evalDecimal src = Returns decimal -> ev src = Some decimal.
Proof. intros Hev Hsrc. specialize (Hev src). now rewrite Hsrc in Hev. Qed.

Lemma conforms_throws (ev : Evaluator) src :
  conforms ev -> evalDecimal src = Throws -> ev src = None.
Proof. intros Hev Hsrc. specialize (Hev src). now rewrite Hsrc in Hev. Qed.

Lemma fragmentEvaluator_conforms : conforms fragmentEvaluator.
Proof.
  intros src. unfold fragmentEvaluator. now destruct (evalDecimal src).
Qed.

(** C1, as the code has it.  With input ["1/0"], in any mode, the
    calculation succeeds: the quotient is the Number [Infinity], so result
    and display become ["Infinity"], the annotation ["1/0 = Infinity"], a
    history entry for it is put in front (the list cut at 100), the error
    is cleared and the input stays. *)
Theorem calculate_division_by_zero (ev : Evaluator) (state : CalculatorState) :
  conforms ev ->
  input state = lit "1/0" ->
  calculate ev state
  = set [F_result (lit "Infinity");
         F_display (lit "Infinity");
         F_latex (lit "1/0 = Infinity");
         F_history
           (take 100 (entryOf (lit "1/0") (lit "Infinity") :: history state));
         F_error None] state
  /\ error (calculate ev state) = None
  /\ input (calculate ev state) = lit "1/0".
Proof.
  intros Hev Hin.
  assert (Hsrc : prepareInputForCalculation (input state) (mode state)
                 = lit "1/0").
  { rewrite Hin. destruct (mode state); vm_compute; reflexivity. }
  assert (Hcalc : ev (prepareInputForCalculation (input state) (mode state))
                  = Some (lit "Infinity")).
  { rewrite Hsrc. apply conforms_returns; [exact Hev|]. vm_compute; reflexivity. }
  rewrite (calculate_success ev state (lit "Infinity")); [|now rewrite Hin|exact Hcalc].
  rewrite Hin. repeat split. simpl. exact Hin.
Qed.

Lemma calculate_division_by_zero_witness :
  conforms fragmentEvaluator
  /\ input oneOverZero = lit "1/0"
  /\ calculate fragmentEvaluator oneOverZero
     = set [F_result (lit "Infinity");
            F_display (lit "Infinity");
            F_latex (lit "1/0 = Infinity");
            F_history
              (take 100
                 (entryOf (lit "1/0") (lit "Infinity") :: history oneOverZero));
            F_error None] oneOverZero
  /\ error (calculate fragmentEvaluator oneOverZero) = None
  /\ input (calculate fragmentEvaluator oneOverZero) = lit "1/0".
Proof.
  split; [exact fragmentEvaluator_conforms|].
  split; [reflexivity|].
  apply (calculate_division_by_zero fragmentEvaluator oneOverZero).
  - exact fragmentEvaluator_conforms.
  - reflexivity.
Defined.

(** C1, as stated, fails: after [1/0] and a calculation no error is set,
    the display has changed from ["1/0"] to ["Infinity"], and the history
    has gained an entry. *)
Lemma division_by_zero_is_no_error :
  input oneOverZero = lit "1/0"
  /\ error (calculate fragmentEvaluator oneOverZero) = None
  /\ display oneOverZero = lit "1/0"
  /\ display (calculate fragmentEvaluator oneOverZero) = lit "Infinity"
  /\ history oneOverZero = []
  /\ history (calculate fragmentEvaluator oneOverZero)
     = [entryOf (lit "1/0") (lit "Infinity")].
Proof. repeat split; vm_compute; reflexivity. Qed.

(** C2, what the code does.  In mode DEG the input ["sin(30)"] is rewritten
    to ["Math.sin(* Math.PI / 180)30)"]: the scaling factor lands inside
    the parentheses of an argument-less call and the argument after them.
    That text is not an expression, [eval] throws, and [calculate] reports
    an error and leaves result, display and history as they were. *)
Theorem calculate_sine_in_degrees (ev : Evaluator) (state : CalculatorState) :
  conforms ev ->
  input state = lit "sin(30)" ->
  mode state = DEG ->
  prepareInputForCalculation (input state) (mode state)
  = lit "Math.sin(* Math.PI / 180)30)"
  /\ evalDecimal (lit "Math.sin(* Math.PI / 180)30)") = Throws
  /\ calculate ev state = set [F_error (Some (lit "Error in calculation"))] state
  /\ result (calculate ev state) = result state
  /\ display (calculate ev state) = display state
  /\ history (calculate ev state) = history state.
Proof.
  intros Hev Hin Hmode.
  assert (Hsrc : prepareInputForCalculation (input state) (mode state)
                 = lit "Math.sin(* Math.PI / 180)30)").
  { rewrite Hin, Hmode. vm_compute; reflexivity. }
  assert (Hthrows : evalDecimal (lit "Math.sin(* Math.PI / 180)30)") = Throws).
  { vm_compute; reflexivity. }
  split; [exact Hsrc|]. split; [exact Hthrows|].
  rewrite (calculate_failure ev state).
  - repeat split.
  - now rewrite Hin.
  - rewrite Hsrc. now apply conforms_throws.
Qed.

Lemma calculate_sine_in_degrees_witness :
  input sineOfThirty = lit "sin(30)"
  /\ mode sineOfThirty = DEG
  /\ prepareInputForCalculation (input sineOfThirty) (mode sineOfThirty)
     = lit "Math.sin(* Math.PI / 180)30)"
  /\ evalDecimal (lit "Math.sin(* Math.PI / 180)30)") = Throws
  /\ calculate fragmentEvaluator sineOfThirty
     = set [F_error (Some (lit "Error in calculation"))] sineOfThirty
  /\ result (calculate fragmentEvaluator sineOfThirty) = result sineOfThirty
  /\ display (calculate fragmentEvaluator sineOfThirty) = display sineOfThirty
  /\ history (calculate fragmentEvaluator sineOfThirty) = history sineOfThirty.
Proof.
  split; [reflexivity|]. split; [reflexivity|].
  apply (calculate_sine_in_degrees fragmentEvaluator sineOfThirty).
  - exact fragmentEvaluator_conforms.
  - reflexivity.
  - reflexivity.
Defined.

(** C4, what the code does.  When a result is present and the token is an
    operator or reads as a number, [appendToInput] starts from the token or
    from the result and does not touch the error: an error that was shown
    stays. *)
Theorem appendToInput_keeps_error_after_result (state : CalculatorState)
  (value : jsstring) :
  truthy (result state) = true ->
  isOperator value = true \/ isNaN (StringToNumber value) = false ->
  error (appendToInput value state) = error state.
Proof.
  intros Hres Hkind. unfold appendToInput. rewrite Hres. simpl.
  destruct (isOperator value) eqn:Hop.
  - rewrite andb_false_r. reflexivity.
  - destruct Hkind as [Hk|Hk]; [discriminate|]. rewrite Hk. reflexivity.
Qed.

Lemma appendToInput_keeps_error_after_result_witness :
  reachable fragmentEvaluator failedAfterResult
  /\ input failedAfterResult = lit "2+2)"
  /\ evalDecimal (lit "2+2)") = Throws
  /\ result failedAfterResult = lit "4"
  /\ error failedAfterResult = Some (lit "Error in calculation")
  /\ isNaN (StringToNumber (lit "5")) = false
  /\ input (appendToInput (lit "5") failedAfterResult) = lit "5"
  /\ error (appendToInput (lit "5") failedAfterResult)
     = error failedAfterResult.
Proof.
  split; [apply reachable_failedAfterResult|].
  split; [vm_compute; reflexivity|].
  split; [vm_compute; reflexivity|].
  split; [vm_compute; reflexivity|].
  split; [vm_compute; reflexivity|].
  split; [vm_compute; reflexivity|].
  split; [vm_compute; reflexivity|].
  apply (appendToInput_keeps_error_after_result failedAfterResult (lit "5")).
  - vm_compute; reflexivity.
  - right. vm_compute; reflexivity.
Defined.

(* ====================================================================== *)
(** * The formatter on numbers *)
(* ====================================================================== *)

(** C5, as the code has it.  A finite number that is an integer, or whose
    default text has fewer than 15 characters, is shown by that text,
    whatever its magnitude.  Only for the others is the magnitude looked
    at: above [1e10], or below [1e-7] and not zero, the number is shown by
    [toExponential(10)], that is with 10 digits after the point. *)
Theorem formatNumber_magnitude_rule (v : float) :
  isFinite v = true ->
  (isInteger v = true \/ (length (Number_toString v) < 15)%nat ->
   formatNumber (OfNumber v) = Number_toString v)
  /\ (isInteger v = false ->
      (15 <= length (Number_toString v))%nat ->
      PrimFloat.ltb 1e10 (PrimFloat.abs v) = true
      \/ (PrimFloat.ltb (PrimFloat.abs v) tenToMinus7 = true
          /\ PrimFloat.eqb v 0 = false) ->
      formatNumber (OfNumber v) = toExponential 10 v).
Proof.
  intros Hfin. unfold formatNumber. rewrite Hfin. cbn [negb]. split.
  - intros [Hint|Hshort].
    + now rewrite Hint.
    + apply Nat.ltb_lt in Hshort. rewrite Hshort. now rewrite orb_true_r.
  - intros Hint Hlong Hmag. rewrite Hint. cbn [orb].
    apply Nat.ltb_ge in Hlong. rewrite Hlong.
    destruct Hmag as [Hbig|[Hsmall Hnz]].
    + now rewrite Hbig.
    + rewrite Hsmall, Hnz. now rewrite orb_true_r.
Qed.

Lemma formatNumber_magnitude_rule_witness :
  isFinite largeFraction = true
  /\ isInteger largeFraction = false
  /\ Number_toString largeFraction = lit "123456789012.345"
  /\ PrimFloat.ltb 1e10 (PrimFloat.abs largeFraction) = true
  /\ toExponential 10 largeFraction = lit "1.2345678901e+11"
  /\ formatNumber (OfNumber largeFraction) = toExponential 10 largeFraction.
Proof.
  split; [vm_compute; reflexivity|].
  split; [vm_compute; reflexivity|].
  split; [vm_compute; reflexivity|].
  split; [vm_compute; reflexivity|].
  split; [vm_compute; reflexivity|].
  apply (formatNumber_magnitude_rule largeFraction).
  - vm_compute; reflexivity.
  - vm_compute; reflexivity.
  - vm_compute. lia.
  - left. vm_compute; reflexivity.
Defined.

(** C5, as stated, fails.  [1e11] is finite and above [1e10], yet it is an
    integer and is shown as ["100000000000"], not in scientific notation;
    [1e-8] is not zero and below [1e-7], yet its default text is short and
    it is shown as ["1e-8"], without 10 digits. *)
Lemma formatNumber_large_integer_is_plain :
  isFinite 1e11 = true
  /\ PrimFloat.ltb 1e10 (PrimFloat.abs 1e11) = true
  /\ formatNumber (OfNumber 1e11) = lit "100000000000"
  /\ toExponential 9 1e11 = lit "1.000000000e+11"
  /\ toExponential 10 1e11 = lit "1.0000000000e+11"
  /\ isFinite tenToMinus8 = true
  /\ PrimFloat.eqb tenToMinus8 0 = false
  /\ PrimFloat.ltb (PrimFloat.abs tenToMinus8) tenToMinus7 = true
  /\ formatNumber (OfNumber tenToMinus8) = lit "1e-8"
  /\ toExponential 9 tenToMinus8 = lit "1.000000000e-8".
Proof. repeat split; vm_compute; reflexivity. Qed.

(* ====================================================================== *)
(** * The memory bank *)
(* ====================================================================== *)







(* ====================================================================== *)
(** * Invariants of the reachable states *)
(* ====================================================================== *)

Lemma truthy_false_nil (s : jsstring) : truthy s = false -> s = [].
Proof. destruct s; simpl; congruence. Qed.

Lemma step_displayMirrors (ev : Evaluator) state a state' :
  step ev state a = Some state' ->
  displayMirrors state -> displayMirrors state'.
Proof.
  intros Hstep Hinv. unfold displayMirrors in *.
  destruct a; cbn [step] in Hstep; try (injection Hstep as <-);
    try exact Hinv.
  - unfold appendToInput.
    repeat match goal with |- context [if ?b then _ else _] => destruct b end;
      now left.
  - right; right. now split.
  - right; right. now split.
  - unfold calculate.
    destruct (truthy (input state)); [|exact Hinv].
    destruct (ev _); [right; now left | exact Hinv].
  - unfold storeInMemory.
    repeat match goal with |- context [if ?b then _ else _] => destruct b end;
      exact Hinv.
  - destruct (recallFromMemory_outcome _ _ _ Hstep)
      as [->|[text [_ [->| ->]]]]; [exact Hinv | now left | now left].
  - unfold clearMemory. destruct (truthyOpt _); exact Hinv.
  - unfold backspace.
    destruct (truthy (input state)); [|exact Hinv].
    cbn [negb set fold_left assign display input result]. unfold orElse.
    destruct (truthy (sliceDropLast (input state))) eqn:E.
    + now left.
    + right; right. split; [reflexivity|]. now apply truthy_false_nil.
Qed.

(** X1. In every reachable state the display shows the input, or the
    result, or ["0"] while the input is empty: no action leaves a stale
    text on it. *)
Theorem display_mirrors_state (ev : Evaluator) (state : CalculatorState) :
  reachable ev state -> displayMirrors state.
Proof.
  induction 1 as [|state a state' _ IH Hstep].
  - right; right. now split.
  - now apply (step_displayMirrors ev state a).
Qed.

Lemma display_mirrors_state_witness :
  displayMirrors afterTwoPlusTwo
  /\ display afterTwoPlusTwo = lit "4".
Proof.
  split; [|vm_compute; reflexivity].
  apply (display_mirrors_state fragmentEvaluator).
  apply reachable_afterTwoPlusTwo.
Defined.

(** The fields an action can change. *)
Lemma history_frame (ev : Evaluator) state a state' :
  step ev state a = Some state' ->
  a <> Calculate -> a <> ClearHistory ->
  history state' = history state.
Proof.
  intros Hstep Hcalc Hclear.
  destruct a; cbn [step] in Hstep; try (injection Hstep as <-);
    try congruence; try reflexivity.
  - unfold appendToInput.
    repeat match goal with |- context [if ?b then _ else _] => destruct b end;
      reflexivity.
  - unfold storeInMemory.
    repeat match goal with |- context [if ?b then _ else _] => destruct b end;
      reflexivity.
  - destruct (recallFromMemory_outcome _ _ _ Hstep)
      as [->|[text [_ [->| ->]]]]; reflexivity.
  - unfold clearMemory. destruct (truthyOpt _); reflexivity.
  - unfold backspace. destruct (truthy _); reflexivity.
Qed.

Lemma memory_frame (ev : Evaluator) state a state' :
  step ev state a = Some state' ->
  (forall key value, a <> StoreInMemory key value) ->
  (forall key, a <> ClearMemory key) ->
  memory state' = memory state.
Proof.
  intros Hstep Hstore Hclear.
  destruct a; cbn [step] in Hstep; try (injection Hstep as <-);
    try reflexivity.
  - unfold appendToInput.
    repeat match goal with |- context [if ?b then _ else _] => destruct b end;
      reflexivity.
  - unfold calculate.
    destruct (truthy _); [destruct (ev _)|]; reflexivity.
  - now destruct (Hstore key value).
  - destruct (recallFromMemory_outcome _ _ _ Hstep)
      as [->|[text [_ [->| ->]]]]; reflexivity.
  - now destruct (Hclear key).
  - unfold backspace. destruct (truthy _); reflexivity.
Qed.

Lemma mode_frame (ev : Evaluator) state a state' :
  step ev state a = Some state' ->
  (forall m, a <> SetMode m) ->
  mode state' = mode state
  /\ precision state'
     = match a with SetPrecision p => p | _ => precision state end.
Proof.
  intros Hstep Hmode.
  destruct a; cbn [step] in Hstep; try (injection Hstep as <-);
    try (split; reflexivity).
  - unfold appendToInput.
    repeat match goal with |- context [if ?b then _ else _] => destruct b end;
      split; reflexivity.
  - unfold calculate.
    destruct (truthy _); [destruct (ev _)|]; split; reflexivity.
  - now destruct (Hmode m).
  - unfold storeInMemory.
    repeat match goal with |- context [if ?b then _ else _] => destruct b end;
      split; reflexivity.
  - destruct (recallFromMemory_outcome _ _ _ Hstep)
      as [->|[text [_ [->| ->]]]]; split; reflexivity.
  - unfold clearMemory. destruct (truthyOpt _); split; reflexivity.
  - unfold backspace. destruct (truthy _); split; reflexivity.
Qed.

(** X2. What each action leaves alone, in the state it leads to: the
    history changes only under [calculate] and [clearHistory], the memory
    bank only under [storeInMemory] and [clearMemory], the mode only under
    [setMode]. *)
Theorem actions_frame (ev : Evaluator) (state : CalculatorState) (a : Action)
  (state' : CalculatorState) :
  step ev state a = Some state' ->
  (history state' = history state
   \/ a = Calculate \/ a = ClearHistory)
  /\ (memory state' = memory state
      \/ (exists key value, a = StoreInMemory key value)
      \/ (exists key, a = ClearMemory key))
  /\ (mode state' = mode state \/ exists m, a = SetMode m).
Proof.
  intros Hstep. split; [|split].
  - destruct a; eauto; left; apply (history_frame ev _ _ _ Hstep);
      discriminate.
  - destruct a; eauto; left; apply (memory_frame ev _ _ _ Hstep);
      discriminate.
  - destruct a; eauto; left; apply (mode_frame ev _ _ _ Hstep);
      discriminate.
Qed.

Lemma actions_frame_witness :
  let a := RecallFromMemory (lit "M") in
  let state' :=
    set [F_input (lit "4"); F_display (lit "4"); F_result []] storedFour in
  step fragmentEvaluator storedFour a = Some state'
  /\ (history state' = history storedFour
      \/ a = Calculate \/ a = ClearHistory)
  /\ (memory state' = memory storedFour
      \/ (exists key value, a = StoreInMemory key value)
      \/ (exists key, a = ClearMemory key))
  /\ (mode state' = mode storedFour \/ exists m, a = SetMode m).
Proof.
  cbv zeta. split; [vm_compute; reflexivity|].
  apply (actions_frame fragmentEvaluator storedFour
           (RecallFromMemory (lit "M"))).
  vm_compute; reflexivity.
Defined.

Lemma step_wellFormed_history (ev : Evaluator) state a state' :
  step ev state a = Some state' ->
  Forall wellFormedEntry (history state) ->
  Forall wellFormedEntry (history state').
Proof.
  intros Hstep Hinv.
  destruct a;
    try (rewrite (history_frame ev _ _ _ Hstep) by discriminate; exact Hinv);
    cbn [step] in Hstep; injection Hstep as <-.
  - unfold calculate.
    destruct (truthy (input state)) eqn:Hin; [|exact Hinv].
    destruct (ev _) as [decimal|]; [|exact Hinv].
    cbn [negb set fold_left assign history].
    apply Forall_take. constructor; [|exact Hinv].
    split; [exact Hin | reflexivity].
  - constructor.
Qed.

(** X3. Every entry of the history of a reachable state was written by a
    calculation on a non-empty input, and its annotation is that input,
    [" = "] and the result. *)
Theorem history_entries_well_formed (ev : Evaluator) (state : CalculatorState) :
  reachable ev state -> Forall wellFormedEntry (history state).
Proof.
  induction 1 as [|state a state' _ IH Hstep].
  - constructor.
  - now apply (step_wellFormed_history ev state a).
Qed.

Lemma history_entries_well_formed_witness :
  Forall wellFormedEntry (history afterTwoPlusTwo)
  /\ length (history afterTwoPlusTwo) = 1%nat.
Proof.
  split; [|vm_compute; reflexivity].
  apply (history_entries_well_formed fragmentEvaluator).
  apply reachable_afterTwoPlusTwo.
Defined.

(** The error after an action: as it was, or none, or the message that a
    calculation on a non-empty input sets when the evaluation fails. *)
Lemma error_step (ev : Evaluator) state a state' :
  step ev state a = Some state' ->
  error state' = error state
  \/ error state' = None
  \/ (a = Calculate
      /\ truthy (input state) = true
      /\ ev (prepareInputForCalculation (input state) (mode state)) = None
      /\ error state' = Some (lit "Error in calculation")).
Proof.
  intros Hstep.
  destruct a; cbn [step] in Hstep; try (injection Hstep as <-);
    try (now left); try (now right; left).
  - unfold appendToInput.
    repeat match goal with |- context [if ?b then _ else _] => destruct b end;
      first [now left | now right; left].
  - unfold calculate.
    destruct (truthy (input state)) eqn:Hin; [|now left].
    destruct (ev _) as [decimal|] eqn:Hev; [now right; left|].
    right; right. repeat split; assumption.
  - unfold storeInMemory.
    repeat match goal with |- context [if ?b then _ else _] => destruct b end;
      now left.
  - destruct (recallFromMemory_outcome _ _ _ Hstep)
      as [->|[text [_ [->| ->]]]]; now left.
  - unfold clearMemory. destruct (truthyOpt _); now left.
  - unfold backspace. destruct (truthy _); first [now left | now right; left].
Qed.

(** X4. The error of a reachable state is either none or the one message
    of a failed calculation, and only a failed calculation sets it: an
    action, from any state, leaves the error as it was or clears it,
    unless it is [calculate] on a non-empty input whose evaluation fails,
    which sets the message. *)
Theorem error_is_calculation_error (ev : Evaluator) (state : CalculatorState) :
  reachable ev state ->
  (error state = None \/ error state = Some (lit "Error in calculation"))
  /\ (forall before a after,
        step ev before a = Some after ->
        error after = error before
        \/ error after = None
        \/ (a = Calculate
            /\ truthy (input before) = true
            /\ ev (prepareInputForCalculation (input before) (mode before))
               = None
            /\ error after = Some (lit "Error in calculation"))).
Proof.
  intros Hreach. split; [|intros before a after; apply error_step].
  induction Hreach as [|state a state' _ IH Hstep]; [now left|].
  destruct (error_step ev state a state' Hstep) as [->|[->|[_ [_ [_ ->]]]]];
    [exact IH | now left | now right].
Qed.

Lemma error_is_calculation_error_witness :
  error failedAfterResult = Some (lit "Error in calculation")
  /\ (error failedAfterResult = None
      \/ error failedAfterResult = Some (lit "Error in calculation"))
  /\ (forall before a after,
        step fragmentEvaluator before a = Some after ->
        error after = error before
        \/ error after = None
        \/ (a = Calculate
            /\ truthy (input before) = true
            /\ fragmentEvaluator
                 (prepareInputForCalculation (input before) (mode before))
               = None
            /\ error after = Some (lit "Error in calculation"))).
Proof.
  split; [vm_compute; reflexivity|].
  apply (error_is_calculation_error fragmentEvaluator).
  apply reachable_failedAfterResult.
Defined.

(* ====================================================================== *)
(** * The memory bank, continued *)
(* ====================================================================== *)

Lemma digitsOfZ_truthy z : truthy (digitsOfZ z) = true.
Proof.
  unfold digitsOfZ, NilZero.string_of_uint.
  destruct (N.to_uint (Z.to_N z)); reflexivity.
Qed.

Lemma truthy_app_l (s t : jsstring) : truthy s = true -> truthy (s ++ t) = true.
Proof. destruct s; simpl; congruence. Qed.

Lemma truthy_app_r (s t : jsstring) : truthy t = true -> truthy (s ++ t) = true.
Proof. destruct s; simpl; [trivial | reflexivity]. Qed.

Lemma formatShortest_truthy s k n : truthy (formatShortest s k n) = true.
Proof.
  unfold formatShortest.
  repeat match goal with |- context [if ?b then _ else _] => destruct b end.
  - apply truthy_app_l, digitsOfZ_truthy.
  - apply truthy_app_r. reflexivity.
  - reflexivity.
  - apply truthy_app_l, digitsOfZ_truthy.
  - apply truthy_app_r. reflexivity.
Qed.

(** The text of a number is never empty. *)
Lemma Number_toString_truthy v : truthy (Number_toString v) = true.
Proof.
  unfold Number_toString.
  destruct (Prim2SF v) as [neg|neg| |neg m e]; try reflexivity.
  - now destruct neg.
  - destruct (shortestDigits m e) as [[s k] n].
    apply truthy_app_r, formatShortest_truthy.
Qed.

Lemma step_slotsFilled (ev : Evaluator) state a state' :
  step ev state a = Some state' ->
  slotsFilled (memory state) -> slotsFilled (memory state').
Proof.
  intros Hstep Hinv. unfold slotsFilled in *.
  destruct a;
    try (rewrite (memory_frame ev _ _ _ Hstep) by discriminate; exact Hinv);
    cbn [step] in Hstep; injection Hstep as <-.
  - unfold storeInMemory.
    destruct (truthy (orElse _ _)) eqn:Hstore; [|exact Hinv].
    destruct (negb _ && _); cbn [set fold_left assign memory];
      apply map_Forall_insert_2; auto using Number_toString_truthy.
  - unfold clearMemory.
    destruct (truthyOpt key); cbn [set fold_left assign memory].
    + now apply map_Forall_delete.
    + apply map_Forall_empty.
Qed.

Lemma reachable_slotsFilled (ev : Evaluator) state :
  reachable ev state -> slotsFilled (memory state).
Proof.
  induction 1 as [|state a state' _ IH Hstep].
  - apply map_Forall_empty.
  - now apply (step_slotsFilled ev state a).
Qed.

Lemma recall_present (key value : jsstring) state :
  memory state !! key = Some value -> truthy value = true ->
  recallFromMemory key state
  = Some (if truthy (result state)
          then set [F_input value; F_display value; F_result []] state
          else set [F_input (input state ++ value);
                    F_display (input state ++ value)] state).
Proof.
  intros H Hv. unfold recallFromMemory. rewrite (memoryAt_own _ _ _ H).
  cbn [truthyAt toStringAt]. rewrite Hv.
  now destruct (truthy (result state)).
Qed.

(** X5. No slot of a reachable state holds the empty string, so recalling
    a key does nothing exactly when [memory[key]] is undefined: the bank
    has no such slot and the key is no property name of
    [Object.prototype]. *)
Theorem recall_is_noop_only_on_missing_slot (ev : Evaluator)
  (state : CalculatorState) (key : jsstring) :
  reachable ev state ->
  (forall value, memory state !! key = Some value -> value <> [])
  /\ (recallFromMemory key state = Some state
      <-> memory state !! key = None /\ objectPrototype key = None).
Proof.
  intros Hreach.
  pose proof (reachable_slotsFilled ev state Hreach) as Hfilled.
  split.
  - intros value Hval. apply truthy_nonempty. exact (Hfilled key value Hval).
  - split; [|intros [Hmiss Hproto]; now apply recall_missing].
    intros Hsame. destruct (memory state !! key) as [value|] eqn:Hval.
    + exfalso.
      pose proof (Hfilled key value Hval) as Hv. cbn beta in Hv.
      rewrite (recall_present key value state Hval Hv) in Hsame.
      injection Hsame as Hsame.
      destruct (truthy (result state)) eqn:Hres.
      * apply (f_equal result) in Hsame. cbn in Hsame.
        rewrite <- Hsame in Hres. discriminate.
      * apply (f_equal input) in Hsame. cbn in Hsame.
        rewrite <- (app_nil_r (input state)) in Hsame at 2.
        apply app_inv_head in Hsame. subst value. discriminate.
    + split; [reflexivity|].
      destruct (objectPrototype key) as [v|] eqn:Hv; [|reflexivity].
      exfalso. apply (recall_inherited state key Hval); [|exact Hsame].
      now rewrite Hv.
Qed.

Lemma recall_is_noop_only_on_missing_slot_witness :
  memory storedFour !! lit "M" = Some (lit "4")
  /\ option_map input (recallFromMemory (lit "M") storedFour)
     = Some (lit "4")
  /\ (forall value, memory storedFour !! lit "M" = Some value -> value <> [])
  /\ (recallFromMemory (lit "M") storedFour = Some storedFour
      <-> memory storedFour !! lit "M" = None
          /\ objectPrototype (lit "M") = None).
Proof.
  split; [vm_compute; reflexivity|].
  split; [vm_compute; reflexivity|].
  apply (recall_is_noop_only_on_missing_slot fragmentEvaluator storedFour).
  apply reachable_storedFour.
Defined.

Lemma storeInMemory_explicit (key value : jsstring) state :
  truthy value = true ->
  storeInMemory key (Some value) state
  = set [F_memory (<[key := value]> (memory state))] state.
Proof.
  intros Hv. unfold storeInMemory.
  change (textOf (Some value)) with value. cbn [truthyOpt].
  unfold orElse. rewrite Hv. cbn [negb andb]. rewrite Hv. reflexivity.
Qed.

(** X6. Storing an explicit, non-empty value overwrites the slot whatever
    it held and leaves the other slots alone; recalling the slot right
    after gives the value back: as the whole input when a result is
    present, at the end of the input otherwise, and the result is cleared.
    This holds for every key: the slot just written is the bank's own. *)
Theorem store_explicit_then_recall (key value : jsstring)
  (state : CalculatorState) :
  value <> [] ->
  let stored := storeInMemory key (Some value) state in
  memory stored !! key = Some value
  /\ (forall other, other <> key -> memory stored !! other = memory state !! other)
  /\ exists recalled,
       recallFromMemory key stored = Some recalled
       /\ input recalled
          = (if truthy (result state) then value else input state ++ value)
       /\ display recalled = input recalled
       /\ result recalled = []
       /\ memory recalled = memory stored.
Proof.
  intros Hne stored. apply truthy_nonempty in Hne.
  assert (Hlook : memory stored !! key = Some value).
  { unfold stored. rewrite (storeInMemory_explicit key value state Hne).
    apply lookup_insert_eq. }
  split; [exact Hlook|]. split.
  - intros other Hother. unfold stored.
    rewrite (storeInMemory_explicit key value state Hne).
    cbn [set fold_left assign memory]. now apply lookup_insert_ne.
  - eexists. split; [exact (recall_present key value stored Hlook Hne)|].
    unfold stored. rewrite (storeInMemory_explicit key value state Hne).
    cbn [set fold_left assign result input].
    destruct (truthy (result state)) eqn:Hres; cbn; repeat split.
    now apply truthy_false_nil.
Qed.

Lemma store_explicit_then_recall_witness :
  let stored := storeInMemory (lit "M") (Some (lit "7")) storedFour in
  memory storedFour !! lit "M" = Some (lit "4")
  /\ memory stored !! lit "M" = Some (lit "7")
  /\ (forall other, other <> lit "M" ->
        memory stored !! other = memory storedFour !! other)
  /\ exists recalled,
       recallFromMemory (lit "M") stored = Some recalled
       /\ input recalled
          = (if truthy (result storedFour) then lit "7"
             else input storedFour ++ lit "7")
       /\ display recalled = input recalled
       /\ result recalled = []
       /\ memory recalled = memory stored.
Proof.
  split; [vm_compute; reflexivity|].
  apply (store_explicit_then_recall (lit "M") (lit "7") storedFour).
  discriminate.
Defined.

(** X7. [clearMemory] with a non-empty key removes that slot and no other;
    a recall of it then does nothing when the key is no property name of
    [Object.prototype], and does not leave the state as it is when it is
    one.  Without a key, or with the empty string as key, the whole bank
    is emptied. *)
Theorem clearMemory_removes_slot (key : jsstring) (state : CalculatorState) :
  key <> [] ->
  let cleared := clearMemory (Some key) state in
  memory cleared !! key = None
  /\ (forall other, other <> key -> memory cleared !! other = memory state !! other)
  /\ (objectPrototype key = None ->
      recallFromMemory key cleared = Some cleared)
  /\ (objectPrototype key <> None ->
      recallFromMemory key cleared <> Some cleared)
  /\ memory (clearMemory None state) = ∅
  /\ memory (clearMemory (Some []) state) = ∅.
Proof.
  intros Hne cleared. apply truthy_nonempty in Hne.
  assert (Hmem : memory cleared = delete key (memory state)).
  { unfold cleared, clearMemory. cbn [truthyOpt textOf default]. now rewrite Hne. }
  assert (Hgone : memory cleared !! key = None).
  { rewrite Hmem. apply lookup_delete_eq. }
  split; [exact Hgone|]. split; [|split; [|split]].
  - intros other Hother. rewrite Hmem. now apply lookup_delete_ne.
  - now apply recall_missing.
  - now apply recall_inherited.
  - split; reflexivity.
Qed.

Lemma clearMemory_removes_slot_witness :
  let cleared := clearMemory (Some (lit "M")) storedFour in
  memory storedFour !! lit "M" = Some (lit "4")
  /\ memory cleared !! lit "M" = None
  /\ (forall other, other <> lit "M" ->
        memory cleared !! other = memory storedFour !! other)
  /\ (objectPrototype (lit "M") = None ->
      recallFromMemory (lit "M") cleared = Some cleared)
  /\ (objectPrototype (lit "M") <> None ->
      recallFromMemory (lit "M") cleared <> Some cleared)
  /\ memory (clearMemory None storedFour) = ∅
  /\ memory (clearMemory (Some []) storedFour) = ∅.
Proof.
  split; [vm_compute; reflexivity|].
  apply (clearMemory_removes_slot (lit "M") storedFour). discriminate.
Defined.



(** X8. The [M-] button with a number on the display replaces the slot [M]
    by the text of its old value (0 for a missing slot) minus the display:
    the explicit value is never accumulated and never dropped, and nothing
    but the memory bank changes.  With a display that does not read as a
    number the button does nothing. *)
Theorem memoryMinus_replaces_slot (state : CalculatorState) :
  let old :=
    match memory state !! lit "M" with
    | Some value => if truthy value then value else lit "0"
    | None => lit "0"
    end in
  memoryMinus state
  = if isNaN (parseFloat (display state)) then state
    else set [F_memory
                (<[lit "M" :=
                     Number_toString
                       (PrimFloat.sub (parseFloat old)
                          (parseFloat (display state)))]> (memory state))]
           state.
Proof.
  intros old. unfold memoryMinus.
  destruct (isNaN (parseFloat (display state))); [reflexivity|].
  cbn [negb]. rewrite storeInMemory_explicit by apply Number_toString_truthy.
  unfold old. destruct (memory state !! lit "M") as [value|]; [|reflexivity].
  cbn [truthyOpt textOf]. destruct (truthy value); reflexivity.
Qed.

(* ====================================================================== *)
(** * Repeated calculations *)
(* ====================================================================== *)

(** A calculation, successful or not, never changes the input, the mode,
    the memory bank, the modifier flags or the precision. *)
Theorem calculate_frame (ev : Evaluator) (state : CalculatorState) :
  input (calculate ev state) = input state
  /\ mode (calculate ev state) = mode state
  /\ memory (calculate ev state) = memory state
  /\ isShiftActive (calculate ev state) = isShiftActive state
  /\ isInverseActive (calculate ev state) = isInverseActive state
  /\ isHyperbolicActive (calculate ev state) = isHyperbolicActive state
  /\ precision (calculate ev state) = precision state.
Proof.
  unfold calculate.
  destruct (truthy (input state)); [destruct (ev _)|]; repeat split.
Qed.

Lemma calculate_input_mode (ev : Evaluator) state :
  input (calculate ev state) = input state
  /\ mode (calculate ev state) = mode state.
Proof.
  unfold calculate.
  destruct (truthy (input state)); [destruct (ev _)|]; split; reflexivity.
Qed.

Lemma iter_calculate_input_mode (ev : Evaluator) state n :
  input (Nat.iter n (calculate ev) state) = input state
  /\ mode (Nat.iter n (calculate ev) state) = mode state.
Proof.
  induction n as [|n [IHi IHm]]; [now split|].
  change (Nat.iter (S n) (calculate ev) state)
    with (calculate ev (Nat.iter n (calculate ev) state)).
  destruct (calculate_input_mode ev (Nat.iter n (calculate ev) state)) as [Hi Hm].
  split; congruence.
Qed.

Lemma take_cons_take {A} (k : nat) (x : A) (l : list A) :
  take (S k) (x :: take (S k) l) = take (S k) (x :: l).
Proof.
  cbn [take firstn]. f_equal. rewrite take_take. f_equal. lia.
Qed.

(** X9. Pressing [=] again and again on an input that evaluates records
    the same entry each time: after [n + 1] calculations the history is
    [n + 1] copies of the entry in front of the earlier entries, cut at
    100, so from 100 repetitions on the ledger holds nothing else; result
    and display are the decimal's text and no error is set. *)
Theorem repeated_calculation (ev : Evaluator) (state : CalculatorState)
  (decimal : jsstring) (n : nat) :
  truthy (input state) = true ->
  ev (prepareInputForCalculation (input state) (mode state)) = Some decimal ->
  let after := Nat.iter (S n) (calculate ev) state in
  let entry := entryOf (input state) decimal in
  history after = take 100 (replicate (S n) entry ++ history state)
  /\ ((100 <= S n)%nat -> history after = replicate 100 entry)
  /\ result after = decimal
  /\ display after = decimal
  /\ error after = None.
Proof.
  intros Hin Hev after entry.
  assert (Hstep : forall k,
            calculate ev (Nat.iter k (calculate ev) state)
            = set [F_result decimal; F_display decimal;
                   F_latex (generateLatex (input state) decimal);
                   F_history
                     (take 100
                        (entry :: history (Nat.iter k (calculate ev) state)));
                   F_error None] (Nat.iter k (calculate ev) state)).
  { intros k.
    destruct (iter_calculate_input_mode ev state k) as [Hi Hm].
    rewrite (calculate_success ev _ decimal); rewrite ?Hi, ?Hm; auto. }
  assert (Hhist : history after
                  = take 100 (replicate (S n) entry ++ history state)).
  { unfold after. induction n as [|n IH].
    - change (Nat.iter 1 (calculate ev) state)
        with (calculate ev (Nat.iter 0 (calculate ev) state)).
      rewrite Hstep. reflexivity.
    - change (Nat.iter (S (S n)) (calculate ev) state)
        with (calculate ev (Nat.iter (S n) (calculate ev) state)).
      rewrite Hstep. cbn [set fold_left assign history]. rewrite IH.
      apply take_cons_take. }
  split; [exact Hhist|]. split.
  - intros Hge. rewrite Hhist. rewrite take_app_le by (rewrite length_replicate; lia).
    rewrite take_replicate. f_equal. lia.
  - unfold after.
    change (Nat.iter (S n) (calculate ev) state)
      with (calculate ev (Nat.iter n (calculate ev) state)).
    rewrite Hstep. repeat split.
Qed.

Lemma repeated_calculation_witness :
  let state := appendAll [lit "2"; lit "+"; lit "2"] initialState in
  let after := Nat.iter 101 (calculate fragmentEvaluator) state in
  let entry := entryOf (lit "2+2") (lit "4") in
  history after = take 100 (replicate 101 entry ++ history state)
  /\ ((100 <= 101)%nat -> history after = replicate 100 entry)
  /\ result after = lit "4"
  /\ display after = lit "4"
  /\ error after = None.
Proof.
  apply (repeated_calculation fragmentEvaluator
           (appendAll [lit "2"; lit "+"; lit "2"] initialState) (lit "4") 100).
  - reflexivity.
  - vm_compute; reflexivity.
Defined.

(* ====================================================================== *)
(** * The rewriter, continued *)
(* ====================================================================== *)

(** X10. An input in which none of the ten rewritten patterns occurs is
    handed to the evaluator as it is, in every mode: plain arithmetic with
    digits, operators other than [^] and parentheses is not touched. *)
Theorem plain_input_is_not_rewritten (input : jsstring) (mode : CalculatorMode) :
  forallb (fun pat => negb (occurs pat input)) rewrittenPatterns = true ->
  prepareInputForCalculation input mode = input.
Proof.
  intros Hnone. unfold rewrittenPatterns in Hnone. cbn [forallb] in Hnone.
  repeat (apply andb_prop in Hnone as [?H Hnone]).
  repeat match goal with
         | H : negb _ = true |- _ => apply negb_true_iff in H
         end.
  unfold prepareInputForCalculation.
  do 10 (rewrite (replaceAll_absent _ _ input) by assumption).
  reflexivity.
Qed.

Lemma plain_input_is_not_rewritten_witness :
  prepareInputForCalculation (lit "(12.5+3)*4/2-7%3") GRAD
  = lit "(12.5+3)*4/2-7%3".
Proof.
  apply (plain_input_is_not_rewritten (lit "(12.5+3)*4/2-7%3") GRAD).
  vm_compute; reflexivity.
Defined.

(** X11. No [^] and no pi sign is left in a rewritten text, whatever the
    input and the mode. *)
Theorem rewrite_leaves_no_caret_or_pi (input : jsstring) (mode : CalculatorMode) :
  ~ In 94%N (prepareInputForCalculation input mode)
  /\ ~ In pi_char (prepareInputForCalculation input mode).
Proof.
  split; apply lacks_spec; unfold prepareInputForCalculation.
  - do 9 (apply lacks_replaceAllFrom; [now destruct mode|]).
    now apply (lacks_replaceAll_char 94%N).
  - do 8 (apply lacks_replaceAllFrom; [now destruct mode|]).
    now apply (lacks_replaceAll_char pi_char).
Qed.

Lemma trigReplacement_grad f : trigReplacement f GRAD = trigReplacement f RAD.
Proof. reflexivity. Qed.

Lemma prepare_grad input :
  prepareInputForCalculation input GRAD = prepareInputForCalculation input RAD.
Proof.
  unfold prepareInputForCalculation. now rewrite !trigReplacement_grad.
Qed.

Lemma calculate_setMode (ev : Evaluator) (m1 m2 : CalculatorMode) state :
  prepareInputForCalculation (input state) m1
  = prepareInputForCalculation (input state) m2 ->
  calculate ev (setMode m1 state) = setMode m1 (calculate ev (setMode m2 state)).
Proof.
  intros Hsame. unfold calculate.
  change (input (setMode m1 state)) with (input state).
  change (input (setMode m2 state)) with (input state).
  change (mode (setMode m1 state)) with m1.
  change (mode (setMode m2 state)) with m2.
  rewrite Hsame.
  destruct (truthy (input state)); [|reflexivity].
  destruct (ev _); reflexivity.
Qed.

(** X12. The mode GRAD is treated as RAD: the rewritten text is the same,
    and so is everything a calculation leaves but the mode itself. *)
Theorem grad_is_rad (ev : Evaluator) (state : CalculatorState) :
  (forall input,
     prepareInputForCalculation input GRAD = prepareInputForCalculation input RAD)
  /\ calculate ev (setMode GRAD state)
     = setMode GRAD (calculate ev (setMode RAD state)).
Proof.
  split; [exact prepare_grad|].
  apply calculate_setMode, prepare_grad.
Qed.

Lemma startsWith_self pat s : startsWith pat (pat ++ s) = true.
Proof.
  induction pat as [|a pat IH]; [reflexivity|].
  cbn. now rewrite N.eqb_refl.
Qed.

Lemma replaceAllFrom_drop pat rep q s :
  replaceAllFrom pat rep (length q) (q ++ s) = replaceAllFrom pat rep 0 s.
Proof. induction q as [|c q IH]; [reflexivity | exact IH]. Qed.

Lemma replaceAll_match pat rep s :
  pat <> [] ->
  replaceAllFrom pat rep 0 (pat ++ s) = rep ++ replaceAllFrom pat rep 0 s.
Proof.
  destruct pat as [|c q]; [congruence|]. intros _.
  change ((c :: q) ++ s) with (c :: (q ++ s)).
  cbn [replaceAllFrom].
  change (c :: (q ++ s)) with ((c :: q) ++ s).
  rewrite startsWith_self. cbn [length Nat.pred].
  now rewrite replaceAllFrom_drop.
Qed.

Lemma prepare_sin_deg rest :
  prepareInputForCalculation (lit "sin(" ++ rest) DEG
  = trigReplacement (lit "sin") DEG ++ prepareInputForCalculation rest DEG.
Proof.
  unfold prepareInputForCalculation, replaceAll.
  do 3 (rewrite (replaceAll_prefix _ _ (lit "sin(")) by (vm_compute; reflexivity)).
  rewrite replaceAll_match by discriminate.
  do 6 (rewrite (replaceAll_prefix _ _ (trigReplacement (lit "sin") DEG))
          by (vm_compute; reflexivity)).
  reflexivity.
Qed.

Lemma prepare_cos_deg rest :
  prepareInputForCalculation (lit "cos(" ++ rest) DEG
  = trigReplacement (lit "cos") DEG ++ prepareInputForCalculation rest DEG.
Proof.
  unfold prepareInputForCalculation, replaceAll.
  do 4 (rewrite (replaceAll_prefix _ _ (lit "cos(")) by (vm_compute; reflexivity)).
  rewrite replaceAll_match by discriminate.
  do 5 (rewrite (replaceAll_prefix _ _ (trigReplacement (lit "cos") DEG))
          by (vm_compute; reflexivity)).
  reflexivity.
Qed.

Lemma prepare_tan_deg rest :
  prepareInputForCalculation (lit "tan(" ++ rest) DEG
  = trigReplacement (lit "tan") DEG ++ prepareInputForCalculation rest DEG.
Proof.
  unfold prepareInputForCalculation, replaceAll.
  do 5 (rewrite (replaceAll_prefix _ _ (lit "tan(")) by (vm_compute; reflexivity)).
  rewrite replaceAll_match by discriminate.
  do 4 (rewrite (replaceAll_prefix _ _ (trigReplacement (lit "tan") DEG))
          by (vm_compute; reflexivity)).
  reflexivity.
Qed.

Lemma parse_call_star fuel f ts :
  (10 <= fuel)%nat ->
  parseExpression fuel (TFn f :: TLParen :: TStar :: ts) = SyntaxError.
Proof.
  intros Hfuel.
  do 10 (destruct fuel as [|fuel]; [lia|]).
  reflexivity.
Qed.

Lemma parseScript_call_star f ts :
  parseScript (TFn f :: TLParen :: TStar :: ts) = SyntaxError.
Proof.
  unfold parseScript. rewrite parse_call_star; [reflexivity|]. lia.
Qed.

Lemma lex_lparen fuel s : lex (S fuel) (40%N :: s) = TLParen :: lex fuel s.
Proof. reflexivity. Qed.

Lemma lex_star_space fuel s :
  lex (S fuel) (42%N :: 32%N :: s) = TStar :: lex fuel (32%N :: s).
Proof. reflexivity. Qed.

Lemma lex_math_call (name : jsstring) (f : MathFn) fuel s :
  lexName (lit "Math." ++ name ++ 40%N :: s) = (TFn f, 40%N :: s) ->
  lex (S fuel) (lit "Math." ++ name ++ 40%N :: s) = TFn f :: lex fuel (40%N :: s).
Proof.
  intros Hname.
  change (lit "Math." ++ name ++ 40%N :: s)
    with (77%N :: (lit "ath." ++ name ++ 40%N :: s)).
  cbn [lex].
  change (77%N :: (lit "ath." ++ name ++ 40%N :: s))
    with (lit "Math." ++ name ++ 40%N :: s).
  rewrite Hname. reflexivity.
Qed.

Lemma evalDecimal_scaled_call (name : jsstring) (f : MathFn) tail :
  (forall s, lexName (lit "Math." ++ name ++ 40%N :: s) = (TFn f, 40%N :: s)) ->
  evalDecimal (lit "Math." ++ name ++ lit "(* " ++ tail) = Throws.
Proof.
  intros Hname. unfold evalDecimal.
  change (lit "Math." ++ name ++ lit "(* " ++ tail)
    with (lit "Math." ++ name ++ 40%N :: 42%N :: 32%N :: tail).
  rewrite (lex_math_call name f) by apply Hname.
  rewrite !length_app. cbn [length].
  change (length (lit "Math.")) with 5%nat.
  rewrite <- !Nat.add_succ_comm. cbn [Nat.add].
  rewrite lex_lparen, lex_star_space, parseScript_call_star. reflexivity.
Qed.

Lemma trig_deg_throws_sin rest :
  evalDecimal (prepareInputForCalculation (lit "sin(" ++ rest) DEG) = Throws.
Proof.
  rewrite prepare_sin_deg.
  change (trigReplacement (lit "sin") DEG ++ prepareInputForCalculation rest DEG)
    with (lit "Math." ++ lit "sin" ++ lit "(* "
          ++ (lit "Math.PI / 180)" ++ prepareInputForCalculation rest DEG)).
  apply (evalDecimal_scaled_call (lit "sin") Msin).
  intros s. vm_compute. reflexivity.
Qed.

Lemma trig_deg_throws_cos rest :
  evalDecimal (prepareInputForCalculation (lit "cos(" ++ rest) DEG) = Throws.
Proof.
  rewrite prepare_cos_deg.
  change (trigReplacement (lit "cos") DEG ++ prepareInputForCalculation rest DEG)
    with (lit "Math." ++ lit "cos" ++ lit "(* "
          ++ (lit "Math.PI / 180)" ++ prepareInputForCalculation rest DEG)).
  apply (evalDecimal_scaled_call (lit "cos") Mcos).
  intros s. vm_compute. reflexivity.
Qed.

Lemma trig_deg_throws_tan rest :
  evalDecimal (prepareInputForCalculation (lit "tan(" ++ rest) DEG) = Throws.
Proof.
  rewrite prepare_tan_deg.
  change (trigReplacement (lit "tan") DEG ++ prepareInputForCalculation rest DEG)
    with (lit "Math." ++ lit "tan" ++ lit "(* "
          ++ (lit "Math.PI / 180)" ++ prepareInputForCalculation rest DEG)).
  apply (evalDecimal_scaled_call (lit "tan") Mtan).
  intros s. vm_compute. reflexivity.
Qed.

(** X13. In mode DEG no input that starts with [sin(], [cos(] or [tan(]
    can be calculated, whatever follows: the rewritten text opens with the
    call, its parenthesis and the [*] of the scaling factor, which is a
    syntax error, so [calculate] only sets the error. *)
Theorem trig_call_in_degrees_never_evaluates (ev : Evaluator)
  (state : CalculatorState) (rest : jsstring) :
  conforms ev ->
  mode state = DEG ->
  input state = lit "sin(" ++ rest
  \/ input state = lit "cos(" ++ rest
  \/ input state = lit "tan(" ++ rest ->
  evalDecimal (prepareInputForCalculation (input state) (mode state)) = Throws
  /\ calculate ev state = set [F_error (Some (lit "Error in calculation"))] state.
Proof.
  intros Hev Hmode Hin.
  assert (Hthrows : evalDecimal
                      (prepareInputForCalculation (input state) (mode state))
                    = Throws).
  { rewrite Hmode.
    destruct Hin as [->|[->| ->]];
      [apply trig_deg_throws_sin | apply trig_deg_throws_cos
      | apply trig_deg_throws_tan]. }
  split; [exact Hthrows|].
  apply calculate_failure.
  - destruct Hin as [->|[->| ->]]; reflexivity.
  - now apply conforms_throws.
Qed.

Lemma trig_call_in_degrees_never_evaluates_witness :
  input cosineOfZero = lit "cos(0)"
  /\ evalDecimal
       (prepareInputForCalculation (input cosineOfZero) (mode cosineOfZero))
     = Throws
  /\ calculate fragmentEvaluator cosineOfZero
     = set [F_error (Some (lit "Error in calculation"))] cosineOfZero.
Proof.
  split; [reflexivity|].
  apply (trig_call_in_degrees_never_evaluates fragmentEvaluator cosineOfZero
           (lit "0)")).
  - exact fragmentEvaluator_conforms.
  - reflexivity.
  - right; left. reflexivity.
Defined.

(* ====================================================================== *)
(** * utils.ts, continued *)
(* ====================================================================== *)

(** X14. The tokens [isOperator] accepts are exactly those with a
    precedence above 0, and a precedence is 0, 1, 2 or 3. *)
Theorem operators_are_the_tokens_with_precedence (value : jsstring) :
  (isOperator value = true <-> 0 < getPrecedence value)
  /\ 0 <= getPrecedence value <= 3.
Proof.
  unfold isOperator, includes, getPrecedence, eqs. cbn [existsb].
  destruct (bool_decide (value = lit "+"));
    destruct (bool_decide (value = lit "-"));
    destruct (bool_decide (value = lit "*"));
    destruct (bool_decide (value = lit "/"));
    destruct (bool_decide (value = lit "^"));
    destruct (bool_decide (value = lit "%"));
    cbn; (split; [split; intros H; first [reflexivity | discriminate | lia | (exfalso; lia)] | lia]).
Qed.

Lemma rev_repeat_same {A} (x : A) n : rev (repeat x n) = repeat x n.
Proof.
  induction n as [|n IH]; [reflexivity|].
  cbn [repeat rev]. rewrite IH. symmetry. apply repeat_cons.
Qed.

Lemma dropZeros_repeat n t : dropZeros (repeat 48%N n ++ t) = dropZeros t.
Proof. induction n as [|n IH]; [reflexivity | exact IH]. Qed.

Lemma dropZeros_all n : dropZeros (repeat 48%N n) = [].
Proof. induction n as [|n IH]; [reflexivity | exact IH]. Qed.

Lemma rev_with_zeros (p : jsstring) (c : codeunit) n :
  rev (p ++ [c] ++ repeat 48%N (S n))
  = 48%N :: (repeat 48%N n ++ c :: rev p).
Proof.
  rewrite !rev_app_distr, rev_repeat_same. cbn [rev app repeat].
  now rewrite <- app_assoc.
Qed.

(** X15. What [replace(/\.?0+$/, '')] does to a text: nothing when it does
    not end in [0]; otherwise the whole run of zeros at the end is cut,
    together with a point directly before it.  The zeros are cut all the
    same when there is no point, that is when they are integer digits. *)
Theorem stripTrailingZeros_cuts_final_zeros :
  (forall p c, c <> 48%N -> stripTrailingZeros (p ++ [c]) = p ++ [c])
  /\ (forall p c n, c <> 48%N -> c <> 46%N ->
        stripTrailingZeros (p ++ [c] ++ repeat 48%N (S n)) = p ++ [c])
  /\ (forall p n, stripTrailingZeros (p ++ [46%N] ++ repeat 48%N (S n)) = p)
  /\ (forall n, stripTrailingZeros (repeat 48%N (S n)) = []).
Proof.
  split; [|split; [|split]].
  - intros p c Hc. unfold stripTrailingZeros.
    rewrite rev_app_distr. cbn [rev app].
    apply N.eqb_neq in Hc. now rewrite Hc.
  - intros p c n Hzero Hpoint. unfold stripTrailingZeros.
    rewrite rev_with_zeros. cbn [N.eqb Pos.eqb dropZeros].
    rewrite dropZeros_repeat. cbn [dropZeros].
    apply N.eqb_neq in Hzero, Hpoint. rewrite Hzero, Hpoint.
    cbn [rev]. now rewrite rev_involutive.
  - intros p n. unfold stripTrailingZeros.
    rewrite rev_with_zeros. cbn [N.eqb Pos.eqb dropZeros].
    rewrite dropZeros_repeat. cbn [dropZeros N.eqb Pos.eqb].
    apply rev_involutive.
  - intros n. unfold stripTrailingZeros.
    rewrite rev_repeat_same.
    change (repeat 48%N (S n)) with (48%N :: repeat 48%N n).
    cbn [N.eqb Pos.eqb].
    change (dropZeros (48%N :: repeat 48%N n)) with (dropZeros (repeat 48%N n)).
    now rewrite dropZeros_all.
Qed.

Lemma stripTrailingZeros_cuts_final_zeros_witness :
  toPrecision 10 tenDigitFraction = lit "12345678" ++ [57%N] ++ repeat 48%N 1
  /\ stripTrailingZeros (lit "12345678" ++ [57%N] ++ repeat 48%N 1)
     = lit "12345678" ++ [57%N]
  /\ formatNumber (OfNumber tenDigitFraction) = lit "123456789".
Proof.
  split; [vm_compute; reflexivity|].
  split; [|vm_compute; reflexivity].
  apply (proj1 (proj2 stripTrailingZeros_cuts_final_zeros)
           (lit "12345678") 57%N 0%nat); discriminate.
Defined.

(* ====================================================================== *)
(** * The modifier flags *)
(* ====================================================================== *)

(** X16. Each of the three toggles undoes itself, and the toggles do not
    interfere: applied in either order they give the same state. *)
Theorem toggles_are_involutions (state : CalculatorState) :
  toggleShift (toggleShift state) = state
  /\ toggleInverse (toggleInverse state) = state
  /\ toggleHyperbolic (toggleHyperbolic state) = state
  /\ toggleShift (toggleInverse state) = toggleInverse (toggleShift state)
  /\ toggleShift (toggleHyperbolic state) = toggleHyperbolic (toggleShift state)
  /\ toggleInverse (toggleHyperbolic state)
     = toggleHyperbolic (toggleInverse state).
Proof.
  destruct state as [d i r l m h mo sh iv hy p e].
  unfold toggleShift, toggleInverse, toggleHyperbolic. cbn.
  rewrite !negb_involutive. repeat split.
Qed.

(* ====================================================================== *)
(** * After a calculation *)
(* ====================================================================== *)

(** X17. The next token after a successful calculation: an operator
    continues from the result; a token that reads as a number starts a new
    input; any other token (a parenthesis, a function, a constant) is
    appended to the old input, and the result stays. *)
Theorem append_after_calculation (ev : Evaluator) (state : CalculatorState)
  (decimal token : jsstring) :
  truthy (input state) = true ->
  ev (prepareInputForCalculation (input state) (mode state)) = Some decimal ->
  decimal <> [] ->
  let after := appendToInput token (calculate ev state) in
  display after = input after
  /\ (isOperator token = true ->
      input after = decimal ++ token /\ result after = [])
  /\ (isOperator token = false -> isNaN (StringToNumber token) = false ->
      input after = token /\ result after = [])
  /\ (isOperator token = false -> isNaN (StringToNumber token) = true ->
      input after = input state ++ token /\ result after = decimal
      /\ error after = None).
Proof.
  intros Hin Hev Hne after. apply truthy_nonempty in Hne.
  assert (Hres : result (calculate ev state) = decimal).
  { now rewrite (calculate_success ev state decimal Hin Hev). }
  assert (Hinp : input (calculate ev state) = input state).
  { now rewrite (calculate_success ev state decimal Hin Hev). }
  subst after. generalize dependent (calculate ev state).
  intros calculated Hres Hinp.
  unfold appendToInput. rewrite Hres, Hinp, Hne. cbn [andb].
  destruct (isOperator token), (isNaN (StringToNumber token));
    cbn; repeat split; intros; congruence.
Qed.

Lemma append_after_calculation_witness :
  let state := appendAll [lit "2"; lit "+"; lit "2"] initialState in
  let after := appendToInput (lit "(") (calculate fragmentEvaluator state) in
  isOperator (lit "(") = false
  /\ isNaN (StringToNumber (lit "(")) = true
  /\ input after = lit "2+2("
  /\ result after = lit "4"
  /\ display after = input after
  /\ (isOperator (lit "(") = true ->
      input after = lit "4" ++ lit "(" /\ result after = [])
  /\ (isOperator (lit "(") = false -> isNaN (StringToNumber (lit "(")) = false ->
      input after = lit "(" /\ result after = [])
  /\ (isOperator (lit "(") = false -> isNaN (StringToNumber (lit "(")) = true ->
      input after = input state ++ lit "(" /\ result after = lit "4"
      /\ error after = None).
Proof.
  split; [vm_compute; reflexivity|].
  split; [vm_compute; reflexivity|].
  split; [vm_compute; reflexivity|].
  split; [vm_compute; reflexivity|].
  apply (append_after_calculation fragmentEvaluator
           (appendAll [lit "2"; lit "+"; lit "2"] initialState)
           (lit "4") (lit "(")).
  - reflexivity.
  - vm_compute; reflexivity.
  - discriminate.
Defined.

(* ====================================================================== *)
(** * The handlers of the calculator page *)
(* ====================================================================== *)

(** X18. The handlers of the page keep the store among its reachable
    states: a key press, the [M-] button and a click on a history entry
    each do what one action of the store does, or nothing.  So the
    invariants of the reachable states hold however the page is driven. *)
Theorem handlers_stay_reachable (ev : Evaluator) (state : CalculatorState) :
  reachable ev state ->
  (forall key, reachable ev (handleKeyDown ev key state))
  /\ reachable ev (memoryMinus state)
  /\ (forall item, reachable ev (clickHistoryEntry item state)).
Proof.
  intros Hreach. split; [|split].
  - intros key. unfold handleKeyDown.
    repeat match goal with |- context [if ?b then _ else _] => destruct b end;
      try exact Hreach.
    + exact (reachable_step ev state (AppendToInput key) _ Hreach eq_refl).
    + exact (reachable_step ev state (AppendToInput key) _ Hreach eq_refl).
    + exact (reachable_step ev state Calculate _ Hreach eq_refl).
    + exact (reachable_step ev state ClearAll _ Hreach eq_refl).
    + exact (reachable_step ev state Backspace _ Hreach eq_refl).
  - unfold memoryMinus. destruct (negb _); [|exact Hreach].
    exact (reachable_step ev state (StoreInMemory _ _) _ Hreach eq_refl).
  - intros item.
    exact (reachable_step ev state (AppendToInput (entry_result item)) _ Hreach eq_refl).
Qed.

Lemma handlers_stay_reachable_witness :
  (forall key, reachable fragmentEvaluator
                 (handleKeyDown fragmentEvaluator key storedFour))
  /\ reachable fragmentEvaluator (memoryMinus storedFour)
  /\ (forall item, reachable fragmentEvaluator (clickHistoryEntry item storedFour)).
Proof.
  apply (handlers_stay_reachable fragmentEvaluator storedFour).
  apply reachable_storedFour.
Defined.
